(** * live_cta_agent: telemetry buffer, trigger engine and interaction cycle

    A shallow embedding of [src/live_cta_agent.py], with the detection loops
    of [src/web_cam_detector.py] and [src/segmentation_human_cam_detector.py]
    and the periodic tracker of [src/system_tracker.py].

    - Clock readings ([time.time()]) are whole seconds since the epoch, in [Z];
      a function that reads the clock takes the reading as an argument
      ([now]), or reads the [clock] field of the world it runs in.
    - [datetime.fromtimestamp(ts).isoformat()] is rendered in the proleptic
      Gregorian calendar with the local zone at UTC; the range error of
      [fromtimestamp] (years outside 1..9999) is not modelled, clock readings
      being well inside.
    - Strings are [string]; a non-ASCII character is its UTF-8 bytes. *)

From Stdlib Require Import ZArith List String Ascii Bool Lia DecimalString Sorted.
From stdpp Require Import gmap strings list fin_maps.
Import ListNotations.

Local Open Scope string_scope.
Local Open Scope list_scope.
Local Open Scope Z_scope.

(** ** Python helpers *)

(** [l[-n:]] for [n > 0]: the last [n] elements, all of [l] when it has fewer. *)
Definition last_n {A} (n : nat) (l : list A) : list A :=
  skipn (length l - n)%nat l.

(** [s.startswith(p)] *)
Definition startswith (s p : string) : bool := String.prefix p s.

(** [str(n)] for an integer [n]. *)
Definition str_of_int (n : Z) : string := NilZero.string_of_int (Z.to_int n).

(** The line feed of "\n". *)
Definition LF : string := String (ascii_of_nat 10) "".

(** [sep.join(parts)] *)
Definition join (sep : string) (parts : list string) : string :=
  String.concat sep parts.

(** [s.endswith(p)] *)
Definition endswith (s p : string) : bool :=
  String.prefix (String.rev p) (String.rev s).

(** A character given by the bytes of its UTF-8 encoding. *)
Definition utf8 (bytes : list nat) : string :=
  string_of_list_ascii (map ascii_of_nat bytes).

(** The characters [str.isspace()] accepts, which are the ones [str.strip()]
    removes: U+0009 to U+000D, U+001C to U+0020, U+0085, U+00A0, U+1680,
    U+2000 to U+200A, U+2028, U+2029, U+202F, U+205F and U+3000. *)
Definition whitespace : list string :=
  map utf8
    [[9]; [10]; [11]; [12]; [13]; [28]; [29]; [30]; [31]; [32];
     [194; 133]; [194; 160]; [225; 154; 128];
     [226; 128; 128]; [226; 128; 129]; [226; 128; 130]; [226; 128; 131];
     [226; 128; 132]; [226; 128; 133]; [226; 128; 134]; [226; 128; 135];
     [226; 128; 136]; [226; 128; 137]; [226; 128; 138];
     [226; 128; 168]; [226; 128; 169]; [226; 128; 175]; [226; 129; 159];
     [227; 128; 128]]%nat.

(** [s] without [p] in front, when it starts with [p]. *)
Fixpoint removeprefix (p s : string) : option string :=
  match p, s with
  | EmptyString, _ => Some s
  | String a p', String b s' =>
      if ascii_dec a b then removeprefix p' s' else None
  | String _ _, EmptyString => None
  end.

(** [s] without the character of [chars] it starts with, if any. *)
Fixpoint drop_one (chars : list string) (s : string) : option string :=
  match chars with
  | [] => None
  | c :: chars' =>
      match removeprefix c s with
      | Some rest => Some rest
      | None => drop_one chars' s
      end
  end.

(** [s.lstrip(chars)]: characters of [chars] are removed from the front as
    long as there is one; [fuel] bounds the number of removals, and the length
    of [s] is enough. *)
Fixpoint lstrip_chars (fuel : nat) (chars : list string) (s : string) : string :=
  match fuel with
  | O => s
  | S fuel' =>
      match drop_one chars s with
      | Some rest => lstrip_chars fuel' chars rest
      | None => s
      end
  end.

(** [s.lstrip()] *)
Definition lstrip (s : string) : string :=
  lstrip_chars (String.length s) whitespace s.

(** [s.rstrip()]: the same from the end, on the reversed bytes; in UTF-8 the
    bytes of a character are never the last bytes of another one, so a
    white-space character is at the end exactly when its bytes are. *)
Definition rstrip (s : string) : string :=
  let r := String.rev s in
  String.rev (lstrip_chars (String.length r) (map String.rev whitespace) r).

(** [s.strip()] *)
Definition strip (s : string) : string := rstrip (lstrip s).

(** ** datetime.fromtimestamp(ts).isoformat() *)
Module Datetime.

Record datetime := mk_datetime
  { year : Z; month : Z; day : Z; hour : Z; minute : Z; second : Z }.

(** Civil date of a day count relative to 1970-01-01. *)
Definition civil_from_days (days : Z) : Z * Z * Z :=
  let z := days + 719468 in
  let era := z / 146097 in
  let doe := z - era * 146097 in
  let yoe := (doe - doe / 1460 + doe / 36524 - doe / 146096) / 365 in
  let y := yoe + era * 400 in
  let doy := doe - (365 * yoe + yoe / 4 - yoe / 100) in
  let mp := (5 * doy + 2) / 153 in
  let d := doy - (153 * mp + 2) / 5 + 1 in
  let m := if mp <? 10 then mp + 3 else mp - 9 in
  (if m <=? 2 then y + 1 else y, m, d).

Definition fromtimestamp (ts : Z) : datetime :=
  let '(y, m, d) := civil_from_days (ts / 86400) in
  let s := ts mod 86400 in
  mk_datetime y m d (s / 3600) (s mod 3600 / 60) (s mod 60).

Definition digit (n : Z) : ascii :=
  nth (Z.to_nat (n mod 10))
      ["0"; "1"; "2"; "3"; "4"; "5"; "6"; "7"; "8"; "9"]%char "0"%char.

Definition pad2 (n : Z) : string :=
  String (digit (n / 10)) (String (digit n) "").

Definition pad4 (n : Z) : string :=
  String (digit (n / 1000)) (String (digit (n / 100)) (pad2 n)).

(** [YYYY-MM-DDTHH:MM:SS]; the microsecond part is absent for a whole
    second. *)
Definition isoformat (dt : datetime) : string :=
  pad4 (year dt) +:+ "-" +:+ pad2 (month dt) +:+ "-" +:+ pad2 (day dt) +:+ "T"
    +:+ pad2 (hour dt) +:+ ":" +:+ pad2 (minute dt) +:+ ":" +:+ pad2 (second dt).

End Datetime.

(** ** class TelemetryBuffer *)
Module TelemetryBuffer.

(** An event is [(timestamp, event_str)]. *)
Definition event : Type := Z * string.

Record t := mk { maxlen : nat; buf : list event }.

(** [TelemetryBuffer(maxlen)]; the default is [maxlen=500]. *)
Definition init (maxlen : nat) : t := mk maxlen [].

(** [deque(maxlen=n).append(x)]: append on the right, then discard from the
    left what exceeds [n] (everything when [n = 0]). *)
Definition deque_append {A} (n : nat) (d : list A) (x : A) : list A :=
  last_n n (d ++ [x]).

(** [add(ev)], the clock reading [now] being [time.time()]. *)
Definition add (self : t) (now : Z) (ev : string) : t :=
  mk (maxlen self) (deque_append (maxlen self) (buf self) (now, ev)).

(** The f-string of [snapshot]: timestamp, two spaces, text. *)
Definition format_line (e : event) : string :=
  Datetime.isoformat (Datetime.fromtimestamp (fst e)) +:+ "  " +:+ snd e.

(** [snapshot(last_n_secs)], the clock reading [now] being [time.time()]. *)
Definition snapshot (self : t) (now : Z) (last_n_secs : Z) : list string :=
  let cutoff := now - last_n_secs in
  map format_line (List.filter (fun e => cutoff <=? fst e) (buf self)).

(** A sequence of [add] calls, each with the clock reading it was made at. *)
Definition add_all (self : t) (calls : list event) : t :=
  fold_left (fun b c => add b (fst c) (snd c)) calls self.

End TelemetryBuffer.

(** ** class TriggerEngine *)
Module TriggerEngine.

Record t := mk { last_prompt : Z; file_events : list Z }.

(** [TriggerEngine()] *)
Definition init : t := mk 0 [].

(** The two reasons [evaluate] can return. *)
Definition idle_pause_reason : string :=
  "I noticed a short pause—what were you thinking through just now?".
Definition file_burst_reason : string :=
  "You opened several new files—how did you choose which ones mattered?".

(** [evaluate(telemetry)]: the reason returned and the engine afterwards.
    [now] is the reading of [time.time()] on entry; the reading inside
    [telemetry.snapshot(6)], the next statement, is taken to be the same. *)
Definition evaluate (self : t) (telemetry : TelemetryBuffer.t) (now : Z)
  : option string * t :=
  let recent := TelemetryBuffer.snapshot telemetry now 6 in
  let any_input :=
    existsb (fun ev => startswith ev "[key]" || startswith ev "[mouse]") recent in
  if negb any_input && (now - last_prompt self >? 15) then
    (Some idle_pause_reason, self)
  else
    let file_events1 :=
      List.filter (fun ts => now - ts <? 30) (file_events self) in
    let file_events2 :=
      file_events1
        ++ (if existsb (fun ev => startswith ev "[file+]") recent
            then [now] else []) in
    let self' := mk (last_prompt self) file_events2 in
    if (3 <=? Z.of_nat (length file_events2)) && (now - last_prompt self >? 30)
    then (Some file_burst_reason, self')
    else (None, self').

End TriggerEngine.

(** ** The process around the two classes: clock, files, collaborators *)
Module Runtime.

(** Exceptions, by the names the specification gives the collaborators'
    failures; [OSError] is a failed [open] or [os.remove], [AttributeError]
    a read of [self.start_time] before any [start_task]. *)
Inductive exn :=
| ModelError | CaptureError | TranscriptionError | OSError | AttributeError.

Inductive outcome (A : Type) :=
| Return (a : A)
| Raise (e : exn).
Arguments Return {A} a.
Arguments Raise {A} e.

(** One line of [cta_log.jsonl], before [json.dump]. *)
Record QARecord := mk_qa
  { ts : string; question : string; answer : option string;
    context : list string }.

(** What a file holds: text lines, JSON lines, or recorded audio. *)
Inductive entry :=
| Line (s : string)
| Json (r : QARecord)
| Audio.

Inductive producer := PollActiveWindow | HookInput | WatchFs.

(** The blocking calls of a cycle; [took] gives the seconds each lasts. *)
Inductive blocking := ChatCompletion | AskYesNo | ShowInfo | Transcription.

(** The collaborators' answers during one callback. *)
Record Env := mk_env
  { (** [client.chat.completions.create(...).choices[0].message.content],
        from the system and the user message *)
    chat_completion : string -> string -> outcome string;
    (** [messagebox.askyesno("CTA", message)] *)
    askyesno : string -> bool;
    (** [sd.rec]/[sd.wait]/[sf.write]: the capture and its file *)
    capture : outcome unit;
    (** [client.audio.transcriptions.create(...).text] *)
    transcription : outcome string;
    (** [open("cta_log.jsonl", "a")] *)
    open_log : outcome unit;
    took : blocking -> Z;
    (** what the producers still append while [stop_task] joins them, each
        with the seconds passed since the event before *)
    stragglers : list (Z * string) }.

Record World := mk_world
  { clock : Z;
    telemetry : TelemetryBuffer.t;
    trigger : TriggerEngine.t;
    stop_event : bool;
    running_threads : list producer;
    start_time : option Z;
    files : gmap string (list entry);
    (** due times of the pending [after(1000, self.monitor_loop)] calls *)
    timers : list Z }.

Definition set_clock (v : Z) (w : World) : World :=
  mk_world v (telemetry w) (trigger w) (stop_event w) (running_threads w)
           (start_time w) (files w) (timers w).
Definition set_telemetry (v : TelemetryBuffer.t) (w : World) : World :=
  mk_world (clock w) v (trigger w) (stop_event w) (running_threads w)
           (start_time w) (files w) (timers w).
Definition set_trigger (v : TriggerEngine.t) (w : World) : World :=
  mk_world (clock w) (telemetry w) v (stop_event w) (running_threads w)
           (start_time w) (files w) (timers w).
Definition set_stop_event (v : bool) (w : World) : World :=
  mk_world (clock w) (telemetry w) (trigger w) v (running_threads w)
           (start_time w) (files w) (timers w).
Definition set_running_threads (v : list producer) (w : World) : World :=
  mk_world (clock w) (telemetry w) (trigger w) (stop_event w) v
           (start_time w) (files w) (timers w).
Definition set_start_time (v : option Z) (w : World) : World :=
  mk_world (clock w) (telemetry w) (trigger w) (stop_event w)
           (running_threads w) v (files w) (timers w).
Definition set_files (v : gmap string (list entry)) (w : World) : World :=
  mk_world (clock w) (telemetry w) (trigger w) (stop_event w)
           (running_threads w) (start_time w) v (timers w).
Definition set_timers (v : list Z) (w : World) : World :=
  mk_world (clock w) (telemetry w) (trigger w) (stop_event w)
           (running_threads w) (start_time w) (files w) v.

(** A computation: it returns or raises, and leaves a world either way. *)
Definition M (A : Type) : Type := World -> outcome A * World.

Definition ret {A} (a : A) : M A := fun w => (Return a, w).
Definition raise {A} (e : exn) : M A := fun w => (Raise e, w).
Definition bind {A B} (m : M A) (k : A -> M B) : M B :=
  fun w => match m w with
           | (Return a, w') => k a w'
           | (Raise e, w') => (Raise e, w')
           end.
Definition get : M World := fun w => (Return w, w).
Definition modify (f : World -> World) : M unit := fun w => (Return tt, f w).
Definition lift {A} (o : outcome A) : M A := fun w => (o, w).

End Runtime.

Import Runtime.

Notation "x <- m ;; k" := (bind m (fun x => k))
  (at level 100, m at next level, right associativity, only parsing).
Notation "m ;;; k" := (bind m (fun _ => k))
  (at level 100, right associativity, only parsing).

(** ** Primitives of the process *)
Module Sys.

(** [time.time()] *)
Definition time_time : M Z := fun w => (Return (clock w), w).

(** A blocking call that lasts [d] seconds. *)
Definition elapse (d : Z) : M unit := modify (fun w => set_clock (clock w + d) w).

(** [open(fn, "w")] and the writes up to the close: the file holds [es]. *)
Definition write_file (fn : string) (es : list entry) : M unit :=
  modify (fun w => set_files (<[fn := es]> (files w)) w).

(** A write to a file opened with mode ["a"]. *)
Definition append_file (fn : string) (es : list entry) : M unit :=
  modify (fun w => set_files (<[fn := default [] (files w !! fn) ++ es]> (files w)) w).

(** [open(fn, "rb")] *)
Definition open_rb (fn : string) : M (list entry) :=
  fun w => match files w !! fn with
           | Some es => (Return es, w)
           | None => (Raise OSError, w)
           end.

(** [os.remove(fn)] *)
Definition os_remove (fn : string) : M unit :=
  fun w => match files w !! fn with
           | Some _ => (Return tt, set_files (delete fn (files w)) w)
           | None => (Raise OSError, w)
           end.

(** [telemetry.add(ev)] at the present clock reading. *)
Definition telemetry_add (ev : string) : M unit :=
  modify (fun w => set_telemetry (TelemetryBuffer.add (telemetry w) (clock w) ev) w).

(** [telemetry.snapshot(last_n_secs)] at the present clock reading. *)
Definition telemetry_snapshot (last_n_secs : Z) : M (list string) :=
  fun w => (Return (TelemetryBuffer.snapshot (telemetry w) (clock w) last_n_secs), w).

(** [self.trigger.evaluate(self.telemetry)] at the present clock reading. *)
Definition trigger_evaluate : M (option string) :=
  fun w => let '(hint, tr) := TriggerEngine.evaluate (trigger w) (telemetry w) (clock w) in
           (Return hint, set_trigger tr w).

(** [self.after(1000, self.monitor_loop)] *)
Definition after_1000 : M unit :=
  modify (fun w => set_timers (timers w ++ [clock w + 1]) w).

End Sys.

(** ** LLM and audio helpers *)

(** [llm_generate_question(prompt_hint, context_lines)] *)
Definition llm_generate_question (env : Env) (prompt_hint : string)
    (context_lines : list string) : M string :=
  let system :=
    "You are an expert CTA interviewer. Ask ONE concise question "
    +:+ "to reveal the user's hidden cues/decision-making, given context." in
  let user_msg :=
    join LF (["Context (last 60 s, most recent last):"]
               ++ last_n 40 context_lines
               ++ [""; "Suggested focus: " +:+ prompt_hint]) in
  Sys.elapse (took env ChatCompletion) ;;;
  content <- lift (chat_completion env system user_msg) ;;
  ret (strip content).

(** [record_audio(fn, seconds)]: the file exists once the capture has
    succeeded. *)
Definition record_audio (env : Env) (fn : string) (seconds : Z) : M unit :=
  Sys.elapse (took env ShowInfo) ;;;
  lift (capture env) ;;;
  Sys.elapse seconds ;;;
  Sys.write_file fn [Audio] ;;;
  Sys.elapse (took env ShowInfo).

(** [transcribe_audio(fn)] *)
Definition transcribe_audio (env : Env) (fn : string) : M string :=
  Sys.open_rb fn ;;;
  Sys.elapse (took env Transcription) ;;;
  lift (transcription env).

(** ** class CTAGUI *)
Module CTAGUI.

(** The truth value of [hint] in [if hint:]. *)
Definition truthy (hint : option string) : bool :=
  match hint with
  | Some (String _ _) => true
  | _ => false
  end.

(** [ask_cta_question(question, ctx)] *)
Definition ask_cta_question (env : Env) (question : string) (ctx : list string)
  : M unit :=
  let message := question +:+ LF +:+ LF +:+ "Record answer?" in
  Sys.elapse (took env AskYesNo) ;;;
  answer <-
    (if askyesno env message then
       now <- Sys.time_time ;;
       let wav_fn := "ans_" +:+ str_of_int now +:+ ".wav" in
       record_audio env wav_fn 12 ;;;
       text <- transcribe_audio env wav_fn ;;
       Sys.os_remove wav_fn ;;;
       ret (Some text)
     else ret None) ;;
  lift (open_log env) ;;;
  now <- Sys.time_time ;;
  Sys.append_file "cta_log.jsonl"
    [Json (mk_qa (Datetime.isoformat (Datetime.fromtimestamp now))
                 question answer (last_n 20 ctx))].

(** [monitor_loop()] *)
Definition monitor_loop (env : Env) : M unit :=
  w <- get ;;
  (if negb (stop_event w) then
     hint <- Sys.trigger_evaluate ;;
     match hint with
     | Some h =>
         if truthy hint then
           ctx <- Sys.telemetry_snapshot 60 ;;
           question <- llm_generate_question env h ctx ;;
           ask_cta_question env question ctx ;;;
           now <- Sys.time_time ;;
           modify (fun w => set_trigger
                     (TriggerEngine.mk now (TriggerEngine.file_events (trigger w))) w)
         else ret tt
     | None => ret tt
     end
   else ret tt) ;;;
  Sys.after_1000.

(** [dump_log()] *)
Definition dump_log : M unit :=
  w <- get ;;
  match start_time w with
  | None => raise AttributeError
  | Some t0 =>
      let fn := "session_" +:+ str_of_int t0 +:+ ".log" in
      lines <- Sys.telemetry_snapshot (10 ^ 9) ;;
      Sys.write_file fn (map Line lines)
  end.

(** [start_task()] *)
Definition start_task : M unit :=
  modify (set_stop_event false) ;;;
  now <- Sys.time_time ;;
  modify (set_start_time (Some now)) ;;;
  modify (fun w => set_running_threads
            (running_threads w ++ [PollActiveWindow; HookInput; WatchFs]) w).

(** [th.join()] over the running threads: the producers append what they
    still have in hand and exit; with no thread there is nothing to wait
    for. *)
Fixpoint drain (evs : list (Z * string)) : M unit :=
  match evs with
  | [] => ret tt
  | (d, ev) :: evs' => Sys.elapse d ;;; Sys.telemetry_add ev ;;; drain evs'
  end.

Definition join_threads (env : Env) : M unit :=
  w <- get ;;
  match running_threads w with
  | [] => ret tt
  | _ :: _ => drain (stragglers env)
  end.

(** [stop_task()] *)
Definition stop_task (env : Env) : M unit :=
  modify (set_stop_event true) ;;;
  join_threads env ;;;
  modify (set_running_threads []) ;;;
  dump_log ;;;
  Sys.elapse (took env ShowInfo).

(** The state [__init__] builds before it calls [monitor_loop]. *)
Definition new (clock0 : Z) (files0 : gmap string (list entry)) : World :=
  mk_world clock0 (TelemetryBuffer.init 500) TriggerEngine.init false []
           None files0 [].

(** [CTAGUI()] *)
Definition init (env : Env) (clock0 : Z) (files0 : gmap string (list entry))
  : outcome unit * World :=
  monitor_loop env (new clock0 files0).

(** One turn of Tk's [mainloop] on a timer: the time passes to the first
    pending callback's due time, the callback runs, and an exception it
    raises is reported and dropped (Tk's [report_callback_exception]).
    With no timer pending nothing runs. *)
Definition mainloop_timer (env : Env) (w : World) : World :=
  match timers w with
  | [] => w
  | due :: rest =>
      snd (monitor_loop env (set_timers rest (set_clock (Z.max (clock w) due) w)))
  end.

(** While a task runs: a producer appends an event. *)
Definition produce (d : Z) (ev : string) (w : World) : World :=
  match running_threads w with
  | [] => w
  | _ :: _ => snd ((Sys.elapse d ;;; Sys.telemetry_add ev) w)
  end.

End CTAGUI.

(** ** Reasoning about computations *)

(** [m] leaves the component [f] of the world as it found it, whether it
    returns or raises. *)
Definition keeps {X A} (f : World -> X) (m : M A) : Prop :=
  forall w, f (snd (m w)) = f w.

(** [wp m Q w]: run from [w], [m] ends in an outcome and a world that
    satisfy [Q]. *)
Definition wp {A} (m : M A) (Q : outcome A -> World -> Prop) (w : World) : Prop :=
  Q (fst (m w)) (snd (m w)).

(** ** Vocabulary of the properties *)

(** The scenario of the eviction property: texts A, B, C, D appended at
    t = 0, 1, 2, 3. *)
Definition abcd : list TelemetryBuffer.event :=
  [(0, "A"); (1, "B"); (2, "C"); (3, "D")].

(** An event of the buffer, no older than 6 seconds at [now], whose text is
    tagged [[key]] or [[mouse]]. *)
Definition recent_input (b : TelemetryBuffer.t) (now : Z) : bool :=
  existsb (fun e => (now - 6 <=? fst e)
                    && (startswith (snd e) "[key]" || startswith (snd e) "[mouse]"))
          (TelemetryBuffer.buf b).

(** The scenario of the file-burst property: three [[file+]] events at
    t = 0, 10, 20 in a buffer of the default capacity. *)
Definition three_files : TelemetryBuffer.t :=
  TelemetryBuffer.add_all (TelemetryBuffer.init 500)
    [(0, "[file+] /home/u/a.py"); (10, "[file+] /home/u/b.py");
     (20, "[file+] /home/u/c.py")].

(** The engine with its file-event list pruned as [evaluate] prunes it. *)
Definition pruned (st : TriggerEngine.t) (now : Z) : TriggerEngine.t :=
  TriggerEngine.mk (TriggerEngine.last_prompt st)
    (List.filter (fun ts => now - ts <? 30) (TriggerEngine.file_events st)).

(** The name [ask_cta_question] gives the recording: the clock is read after
    the yes/no dialog. *)
Definition answer_file (env : Env) (w : World) : string :=
  "ans_" +:+ str_of_int (clock w + took env AskYesNo) +:+ ".wav".

(** Collaborators that answer the same whatever they are asked, every
    blocking call lasting one second, no producer event in flight. *)
Definition env_of (chat : outcome string) (yes : bool) (cap : outcome unit)
    (text : outcome string) (log : outcome unit) : Env :=
  mk_env (fun _ _ => chat) (fun _ => yes) cap text log (fun _ => 1) [].

(** What happens between two button presses: a producer appends an event
    [d] seconds after the step before, or the event loop runs a timer. *)
Inductive action :=
| Produce (d : Z) (ev : string)
| Timer (env : Env).

Definition act (w : World) (a : action) : World :=
  match a with
  | Produce d ev => CTAGUI.produce d ev w
  | Timer env => CTAGUI.mainloop_timer env w
  end.

Definition run (acts : list action) (w : World) : World := fold_left act acts w.

(** The events a list of delays and texts becomes when appended from clock
    reading [t] on. *)
Fixpoint timed (t : Z) (evs : list (Z * string)) : list TelemetryBuffer.event :=
  match evs with
  | [] => []
  | (d, ev) :: evs' => (t + d, ev) :: timed (t + d) evs'
  end.

(** The events the producers still append while [stop_task] joins them. *)
Definition late (env : Env) (w : World) : list TelemetryBuffer.event :=
  match running_threads w with
  | [] => []
  | _ :: _ => timed (clock w) (stragglers env)
  end.

(** The seconds a list of delays and texts takes. *)
Definition seconds (evs : list (Z * string)) : Z :=
  fold_right (fun e s => fst e + s) 0 evs.

(** The clock reading [dump_log] takes its snapshot at when [stop_task] is
    called in [w]: the producers have been joined by then. *)
Definition dump_time (env : Env) (w : World) : Z :=
  match running_threads w with
  | [] => clock w
  | _ :: _ => clock w + seconds (stragglers env)
  end.

(** A stop, whatever happens while stopped, and a new start. *)
Definition restarted (env : Env) (idle : list action) (w : World) : World :=
  snd (CTAGUI.start_task (run idle (snd (CTAGUI.stop_task env w)))).

(** The cycle of [monitor_loop], up to the rescheduling. *)
Definition cycle (env : Env) (w : World) : M unit :=
  if negb (stop_event w) then
    hint <- Sys.trigger_evaluate ;;
    match hint with
    | Some h =>
        if CTAGUI.truthy hint then
          ctx <- Sys.telemetry_snapshot 60 ;;
          question <- llm_generate_question env h ctx ;;
          CTAGUI.ask_cta_question env question ctx ;;;
          now <- Sys.time_time ;;
          modify (fun w => set_trigger
                    (TriggerEngine.mk now (TriggerEngine.file_events (trigger w))) w)
        else ret tt
    | None => ret tt
    end
  else ret tt.

(** A session under way 50 seconds after the epoch: started, then a key
    press and a file creation. *)
Definition session_world : World :=
  run [Produce 1 "[key] 'a'"; Produce 2 "[file+] /tmp/x"]
      (snd (CTAGUI.start_task (CTAGUI.new 50 ∅))).

(** Collaborators for a stop during which the window poller still appends
    one event. *)
Definition env_late : Env :=
  mk_env (fun _ _ => Return "Why?") (fun _ => false) (Return tt) (Return "unused")
         (Return tt) (fun _ => 1) [(1, "[win] editor")].

(** An error inside one interaction cycle: the question generation fails; or
    the recording, or the transcription, of an accepted answer fails; or the
    log cannot be opened once the answer is settled. *)
Inductive cycle_error (env : Env) (e : exn) : Prop :=
| error_in_question :
    (forall s m, chat_completion env s m = Raise e) -> cycle_error env e
| error_in_recording q :
    (forall s m, chat_completion env s m = Return q) ->
    (forall m, askyesno env m = true) ->
    capture env = Raise e -> cycle_error env e
| error_in_transcription q :
    (forall s m, chat_completion env s m = Return q) ->
    (forall m, askyesno env m = true) ->
    capture env = Return tt -> transcription env = Raise e -> cycle_error env e
| error_in_log_write_declined q :
    (forall s m, chat_completion env s m = Return q) ->
    (forall m, askyesno env m = false) ->
    open_log env = Raise e -> cycle_error env e
| error_in_log_write_answered q text :
    (forall s m, chat_completion env s m = Return q) ->
    (forall m, askyesno env m = true) ->
    capture env = Return tt -> transcription env = Return text ->
    open_log env = Raise e -> cycle_error env e.

(** Timestamps in the order of a clock that never goes back. *)
Definition nondecreasing (l : list TelemetryBuffer.event) : Prop :=
  StronglySorted (fun a b => fst a <= fst b) l.

(** ** The producers: window poller, input hooks, file watcher *)
Module Producers.

(** [platform.system()] *)
Inductive platform := Windows | Darwin | Linux.

(** What the probe of the active window gives: the title as the system
    returns it ([GetWindowText], or the decoded output of the command), or an
    exception and its message. *)
Inductive probe :=
| Title (raw : string)
| ProbeError (message : string).

(** The body of the loop of [poll_active_window]: the title is stripped
    except on Windows; a failure is reported as an event. *)
Definition poll_active_window_body (system : platform) (p : probe) : M unit :=
  match p with
  | Title raw =>
      let title := match system with
                   | Windows => raw
                   | _ => strip raw
                   end in
      Sys.telemetry_add ("[win] " +:+ title)
  | ProbeError e => Sys.telemetry_add ("[win] ERROR " +:+ e)
  end ;;;
  Sys.elapse 1.

(** One turn of [while not stop_event.is_set()]. *)
Definition poll_active_window_turn (system : platform) (p : probe) : M unit :=
  w <- get ;;
  if stop_event w then ret tt else poll_active_window_body system p.

(** The callbacks of [hook_input]; [key] and [button] are already text. *)
Definition on_press (key : string) : M unit :=
  Sys.telemetry_add ("[key] " +:+ key).

Definition on_click (x y : Z) (button : string) (pressed : bool) : M unit :=
  if pressed then
    Sys.telemetry_add
      ("[mouse] " +:+ button +:+ " at " +:+ str_of_int x +:+ "," +:+ str_of_int y)
  else ret tt.

(** The callbacks of [FSHandler]. *)
Definition on_created (src_path : string) : M unit :=
  Sys.telemetry_add ("[file+] " +:+ src_path).

Definition on_modified (src_path : string) : M unit :=
  Sys.telemetry_add ("[file~] " +:+ src_path).

End Producers.

(** What the producers are called with, in the order it happens. *)
Inductive callback :=
| PollTurn (system : Producers.platform) (p : Producers.probe)
| KeyPress (key : string)
| MouseClick (x y : Z) (button : string) (pressed : bool)
| FileCreated (src_path : string)
| FileModified (src_path : string).

Definition deliver (c : callback) : M unit :=
  match c with
  | PollTurn system p => Producers.poll_active_window_turn system p
  | KeyPress key => Producers.on_press key
  | MouseClick x y button pressed => Producers.on_click x y button pressed
  | FileCreated src_path => Producers.on_created src_path
  | FileModified src_path => Producers.on_modified src_path
  end.

Fixpoint deliver_all (cs : list callback) : M unit :=
  match cs with
  | [] => ret tt
  | c :: cs' => deliver c ;;; deliver_all cs'
  end.

(** The text starts with one of the five tags of the producers. *)
Definition tagged (text : string) : bool :=
  startswith text "[win] " || startswith text "[key] " || startswith text "[mouse] "
  || startswith text "[file+] " || startswith text "[file~] ".

(** The callbacks that append an event: all but a mouse release, and a turn
    of the poller once the stop signal is set. *)
Definition appends (stopped : bool) (c : callback) : bool :=
  match c with
  | PollTurn _ _ => negb stopped
  | MouseClick _ _ _ pressed => pressed
  | _ => true
  end.

(** The two messages [llm_generate_question] sends to the model. *)
Definition system_message : string :=
  "You are an expert CTA interviewer. Ask ONE concise question "
  +:+ "to reveal the user's hidden cues/decision-making, given context.".

Definition user_message (prompt_hint : string) (context_lines : list string)
  : string :=
  join LF (["Context (last 60 s, most recent last):"]
             ++ last_n 40 context_lines
             ++ [""; "Suggested focus: " +:+ prompt_hint]).

(** A string made of characters of [chars] only. *)
Inductive made_of (chars : list string) : string -> Prop :=
| made_of_nil : made_of chars ""
| made_of_cons c s : In c chars -> made_of chars s -> made_of chars (c +:+ s).

(** A reply with a no-break space (U+00A0) and a line feed around the
    question. *)
Definition padded_reply : string :=
  utf8 [194; 160]%nat +:+ LF +:+ "  Why that file? " +:+ utf8 [194; 160]%nat +:+ LF.

(** ** web_cam_detector.py and segmentation_human_cam_detector.py *)
Module Webcam.

(** A rectangle [(x, y, w, h)] of [detectMultiScale]. *)
Definition rect : Type := (Z * Z * Z * Z)%type.

(** What the cascades find in a frame: frontal faces, profile faces, profile
    faces of the flipped image, upper bodies. *)
Record detections := mk_detections
  { frontal_faces : list rect; profile_faces : list rect;
    profile_faces_flipped : list rect; upper_bodies : list rect }.

(** [detect_human(frame)] of web_cam_detector.py. *)
Definition detect_human (d : detections) : bool :=
  (0 <? length (frontal_faces d))%nat
  || (0 <? length (profile_faces d))%nat
  || (0 <? length (profile_faces_flipped d))%nat
  || (0 <? length (upper_bodies d))%nat.

(** The variables of [main]'s loop. *)
Record state := mk_state
  { human_present : bool; presence_counter : nat; absence_counter : nat }.

Definition initial : state := mk_state false 0 0.

(** What a turn of the loop gets: [cap.read()] fails, or gives a frame; then
    the turn reads the clock, if the state changed, and the key. *)
Inductive capture (F : Type) :=
| ReadFailed
| Read (frame : F) (current_time : string) (key : Z).
Arguments ReadFailed {F}.
Arguments Read {F} frame current_time key.

(** The line printed on a change of state. *)
Definition log_line (current_time : string) (present : bool) : string :=
  current_time +:+ ": Human is " +:+ (if present then "present" else "not present").

Section Loop.
Context {F : Type} (detect : F -> bool) (presence_threshold absence_threshold : nat).

(** The counters and the state after a frame, with [state_changed]. *)
Definition step (st : state) (frame : F) : state * bool :=
  let is_human_detected := detect frame in
  let presence := if is_human_detected then S (presence_counter st) else 0%nat in
  let absence := if is_human_detected then 0%nat else S (absence_counter st) in
  if (presence_threshold <=? presence)%nat && negb (human_present st) then
    (mk_state true presence absence, true)
  else if (absence_threshold <=? absence)%nat && human_present st then
    (mk_state false presence absence, true)
  else (mk_state (human_present st) presence absence, false).

(** The loop over the captures to come: the lines printed, the state, and
    whether the loop was left (a failed read, or the key q). *)
Fixpoint loop (st : state) (inputs : list (capture F)) : list string * state * bool :=
  match inputs with
  | [] => ([], st, false)
  | ReadFailed :: _ => (["Error: Failed to capture frame."], st, true)
  | Read frame current_time key :: rest =>
      let '(st', state_changed) := step st frame in
      let printed :=
        if state_changed then [log_line current_time (human_present st')] else [] in
      if Z.land key 255 =? 113 then (printed, st', true)
      else
        let '(printed', st'', exited) := loop st' rest in
        (printed ++ printed', st'', exited)
  end.

(** [main()]: what it prints; [opened] is [cap.isOpened()]. *)
Definition main (banner : string) (opened : bool) (inputs : list (capture F))
  : list string :=
  if negb opened then ["Error: Could not open webcam."]
  else
    let '(printed, _, exited) := loop initial inputs in
    [banner] ++ printed ++ (if exited then ["Webcam closed."] else []).

End Loop.

(** [main()] of web_cam_detector.py: 3 frames confirm a presence, 5 an
    absence. *)
Definition web_cam_main : bool -> list (capture detections) -> list string :=
  main detect_human 3 5
    "Starting webcam human detection (multi-cascade for robustness). Press 'q' to quit.".

(** [main()] of segmentation_human_cam_detector.py: 3 frames confirm a
    presence, 100 an absence. Its [detect_human], a threshold in floating
    point on the share of mask pixels, is taken as given: a frame is what it
    answers. *)
Definition segmentation_main : bool -> list (capture bool) -> list string :=
  main (fun is_human_detected : bool => is_human_detected) 3 100
    "Starting webcam human detection (using MediaPipe Selfie Segmentation). Press 'q' to quit.".

End Webcam.

(** The frames a loop works on before it is left. *)
Fixpoint processed {F} (inputs : list (Webcam.capture F)) : list F :=
  match inputs with
  | [] => []
  | Webcam.ReadFailed :: _ => []
  | Webcam.Read frame _ key :: rest =>
      frame :: (if Z.land key 255 =? 113 then [] else processed rest)
  end.

(** The state of a loop after the frames, one step each. *)
Definition after_frames {F} (detect : F -> bool) (pt at_ : nat)
    (st : Webcam.state) (frames : list F) : Webcam.state :=
  fold_left (fun s f => fst (Webcam.step detect pt at_ s f)) frames st.

(** How many of the first elements satisfy [p], and how many of the last. *)
Fixpoint leading {A} (p : A -> bool) (l : list A) : nat :=
  match l with
  | x :: l' => if p x then S (leading p l') else 0%nat
  | [] => 0%nat
  end.

Definition streak {A} (p : A -> bool) (l : list A) : nat := leading p (rev l).

(** [b], then its negation, and so on, [n] times. *)
Fixpoint alternate (b : bool) (n : nat) : list bool :=
  match n with
  | O => []
  | S n' => b :: alternate (negb b) n'
  end.

(** Three frames with a frontal face, then four with nothing, no key
    pressed. *)
Definition three_hits_four_misses : list (Webcam.capture Webcam.detections) :=
  map (fun d => Webcam.Read d "t" (-1))
      (repeat (Webcam.mk_detections [(1, 1, 40, 40)] [] [] []) 3
       ++ repeat (Webcam.mk_detections [] [] [] []) 4).

(** ** system_tracker.py: window details and the periodic tracker *)
Module SystemTracker.

(** [s.lower()], on the ASCII letters.  Of the other characters only U+0130
    and U+212A lower-case to an ASCII letter (an i followed by a combining
    dot, and a k), and neither completes one of the words looked for in the
    result. *)
Definition lower_char (c : ascii) : ascii :=
  let n := nat_of_ascii c in
  if ((65 <=? n) && (n <=? 90))%nat then ascii_of_nat (n + 32) else c.

Fixpoint lower (s : string) : string :=
  match s with
  | String c s' => String (lower_char c) (lower s')
  | EmptyString => EmptyString
  end.

(** [needle in s] *)
Fixpoint contains (needle s : string) : bool :=
  match s with
  | String _ s' => String.prefix needle s || contains needle s'
  | EmptyString => String.prefix needle EmptyString
  end.

(** [s.split(sep)[0]] for a separator that is not empty: what comes before
    the first [sep], all of [s] when there is none. *)
Fixpoint before (sep s : string) : string :=
  match s with
  | String c s' => if String.prefix sep s then EmptyString else String c (before sep s')
  | EmptyString => EmptyString
  end.

(** A window as [getActiveWindow()] gives it: its handle, its title and its
    bounds [(left, top, width, height)]. Two windows are equal when their
    handles are. *)
Record window := mk_window { hWnd : Z; title : string; bounds : Z * Z * Z * Z }.

Definition same_window (a b : option window) : bool :=
  match a, b with
  | None, None => true
  | Some x, Some y => hWnd x =? hWnd y
  | _, _ => false
  end.

(** The [metadata] dictionary: empty, or with the one key [url], or with the
    one key [file_path]; the value may be [None]. *)
Inductive metadata :=
| NoKey
| UrlKey (url : option string)
| FilePathKey (file_path : option string).

(** What [get_window_details] returns for a window: the details, or the
    dictionary with the one key [error]. *)
Inductive details :=
| Details (title process_name : string) (pid : Z) (bounds : Z * Z * Z * Z)
    (md : metadata)
| ErrorDetails (error : string).

(** [window.title.split(' - ')[0] if ' - ' in window.title else None] *)
Definition title_head (title : string) : option string :=
  if contains " - " title then Some (before " - " title) else None.

(** [get_window_details(window)]; [probe] is the lookup of the window's
    process, its name and pid, or the message of the exception it raises. *)
Definition get_window_details (probe : window -> string + string * Z)
    (w : option window) : option details :=
  match w with
  | None => None
  | Some win =>
      match probe win with
      | inl e => Some (ErrorDetails e)
      | inr (process_name, pid) =>
          let md :=
            if contains "chrome" (lower process_name)
               || contains "firefox" (lower process_name)
            then UrlKey (title_head (title win))
            else if contains "notepad" (lower process_name)
                    || contains "code" (lower process_name)
            then FilePathKey (title_head (title win))
            else NoKey in
          Some (Details (title win) process_name pid (bounds win) md)
      end
  end.

(** The entries the periodic tracker logs, by their [type]. *)
Inductive entry :=
| window_time_spent (timestamp : string) (window : option details)
    (duration_seconds : Z) (start_time end_time : string)
| window_change (timestamp : string) (window : option details) (action : string)
    (screenshot : string)
| clipboard_change (timestamp : string) (new_content : string)
| network_activity (timestamp : string) (url : option string) (window : details).

(** The globals of the tracker. *)
Record tracker := mk_tracker
  { current_window : option window; window_start_time : option Z;
    last_clipboard : string }.

(** What one turn of the loop finds: the active window, the clipboard, what
    [take_screenshot()] would return, and the clock, which a turn reads up to
    three times: for [get_timestamp()] at the top of the turn and, when the
    window has changed, for the duration of the window left and, after the
    screenshot and the logging, for the start of the new window. *)
Record tick := mk_tick
  { active_window : option window; now : Z; now_duration : Z; now_start : Z;
    clipboard : string; screenshot : string }.

(** [get_timestamp()] *)
Definition get_timestamp (now : Z) : string :=
  Datetime.isoformat (Datetime.fromtimestamp now).

(** One turn of [periodic_tracker]'s loop: the entries logged, in order, and
    the globals afterwards. *)
Definition periodic_tracker_turn (probe : window -> string + string * Z)
    (st : tracker) (t : tick) : list entry * tracker :=
  let ts := get_timestamp (now t) in
  let window_entries :=
    if negb (same_window (active_window t) (current_window st)) then
      (match current_window st, window_start_time st with
       | Some cw, Some start =>
           [window_time_spent ts (get_window_details probe (current_window st))
              (now_duration t - start) (get_timestamp start) ts]
       | _, _ => []
       end)
      ++ [window_change ts (get_window_details probe (active_window t))
            (match current_window st with Some _ => "focus" | None => "open" end)
            (screenshot t)]
    else [] in
  let current' :=
    if negb (same_window (active_window t) (current_window st))
    then active_window t else current_window st in
  let start' :=
    if negb (same_window (active_window t) (current_window st))
    then Some (now_start t) else window_start_time st in
  let clipboard_entries :=
    if negb (clipboard t =? last_clipboard st)%string
    then [clipboard_change ts (clipboard t)] else [] in
  let network_entries :=
    match get_window_details probe (active_window t) with
    | Some (Details title0 name pid b (UrlKey url) as d) => [network_activity ts url d]
    | _ => []
    end in
  (window_entries ++ clipboard_entries ++ network_entries,
   mk_tracker current' start' (clipboard t)).

(** The turns of the loop, one after the other. *)
Fixpoint periodic_tracker (probe : window -> string + string * Z)
    (st : tracker) (ticks : list tick) : list entry * tracker :=
  match ticks with
  | [] => ([], st)
  | t :: rest =>
      let '(logged, st') := periodic_tracker_turn probe st t in
      let '(logged', st'') := periodic_tracker probe st' rest in
      (logged ++ logged', st'')
  end.

End SystemTracker.

(** How many times a value differs from the one before it, [prev] being
    before the first. *)
Fixpoint changes {A} (same : A -> A -> bool) (prev : A) (l : list A) : nat :=
  match l with
  | [] => 0%nat
  | x :: l' => ((if same x prev then 0 else 1) + changes same x l')%nat
  end.

Definition is_clipboard_change (e : SystemTracker.entry) : bool :=
  match e with
  | SystemTracker.clipboard_change _ _ => true
  | _ => false
  end.

Definition is_window_change (e : SystemTracker.entry) : bool :=
  match e with
  | SystemTracker.window_change _ _ _ _ => true
  | _ => false
  end.

Definition is_network_activity (e : SystemTracker.entry) : bool :=
  match e with
  | SystemTracker.network_activity _ _ _ => true
  | _ => false
  end.

(** The window is there and its process, looked up without error, is a
    browser for [get_window_details]. *)
Definition browser_window (probe : SystemTracker.window -> string + string * Z)
    (w : option SystemTracker.window) : bool :=
  match w with
  | Some win =>
      match probe win with
      | inr (process_name, _) =>
          SystemTracker.contains "chrome" (SystemTracker.lower process_name)
          || SystemTracker.contains "firefox" (SystemTracker.lower process_name)
      | inl _ => false
      end
  | None => false
  end.

(** The seconds of the [window_time_spent] entries, added up. *)
Fixpoint total_time_spent (entries : list SystemTracker.entry) : Z :=
  match entries with
  | [] => 0
  | SystemTracker.window_time_spent _ _ duration_seconds _ _ :: rest =>
      duration_seconds + total_time_spent rest
  | _ :: rest => total_time_spent rest
  end.

(** The seconds between the reading of the clock for a duration and the
    one for the start of the next window, added up over the turns that find
    another window than the one before, [prev] being the window before the
    first turn. *)
Fixpoint unaccounted (prev : option SystemTracker.window)
    (ticks : list SystemTracker.tick) : Z :=
  match ticks with
  | [] => 0
  | t :: rest =>
      if SystemTracker.same_window (SystemTracker.active_window t) prev
      then unaccounted prev rest
      else SystemTracker.now_start t - SystemTracker.now_duration t
           + unaccounted (SystemTracker.active_window t) rest
  end.

Example isoformat_epoch :
  Datetime.isoformat (Datetime.fromtimestamp 0) = "1970-01-01T00:00:00".
Proof. reflexivity. Qed.

Example isoformat_2025 :
  Datetime.isoformat (Datetime.fromtimestamp 1762167600) = "2025-11-03T11:00:00".
Proof. vm_compute. reflexivity. Qed.

Example isoformat_leap :
  Datetime.isoformat (Datetime.fromtimestamp 951782400) = "2000-02-29T00:00:00".
Proof. vm_compute. reflexivity. Qed.

Example evaluate_fresh :
  TriggerEngine.evaluate TriggerEngine.init (TelemetryBuffer.init 500) 20
  = (Some TriggerEngine.idle_pause_reason, TriggerEngine.init).
Proof. reflexivity. Qed.

(** An em space (U+2003) in front, an ideographic space (U+3000) and a space
    at the end. *)
Example strip_unicode :
  strip (utf8 [226; 128; 131]%nat +:+ "a b" +:+ utf8 [227; 128; 128]%nat +:+ " ")
  = "a b".
Proof. reflexivity. Qed.

(** A zero-width space (U+200B) is no white space. *)
Example strip_zero_width :
  strip (" " +:+ utf8 [226; 128; 139]%nat +:+ "x ") = utf8 [226; 128; 139]%nat +:+ "x".
Proof. reflexivity. Qed.

(** * Properties *)

(** ** Slices and the bounded deque *)
Section LastN.
Context {A : Type}.
Implicit Types (l : list A) (n : nat).

Lemma last_n_length l n : (length (last_n n l) <= n)%nat.
Proof. unfold last_n. rewrite length_skipn. lia. Qed.

Lemma last_n_short l n : (length l <= n)%nat -> last_n n l = l.
Proof.
  intros H. unfold last_n.
  replace (length l - n)%nat with 0%nat by lia. reflexivity.
Qed.

Lemma last_n_exact l l' n : length l' = n -> last_n n (l ++ l') = l'.
Proof.
  intros H. unfold last_n. rewrite length_app, H.
  replace (length l + n - n)%nat with (length l + 0)%nat by lia.
  rewrite skipn_app, skipn_all2 by lia.
  replace (length l + 0 - length l)%nat with 0%nat by lia. reflexivity.
Qed.

(** Trimming early changes nothing once more is appended and trimmed. *)
Lemma last_n_app_absorb l l' n :
  last_n n (last_n n l ++ l') = last_n n (l ++ l').
Proof.
  destruct (Nat.le_gt_cases (length l) n) as [Hle | Hgt].
  - rewrite (last_n_short l) by exact Hle. reflexivity.
  - unfold last_n at 1 3. rewrite !length_app.
    unfold last_n. rewrite length_skipn.
    rewrite !skipn_app, !skipn_skipn, !length_skipn.
    f_equal; f_equal; lia.
Qed.

End LastN.

Section Buffer.
Import TelemetryBuffer.

Lemma maxlen_add b now ev : maxlen (add b now ev) = maxlen b.
Proof. reflexivity. Qed.

Lemma maxlen_add_all calls : forall b, maxlen (add_all b calls) = maxlen b.
Proof.
  induction calls as [| c calls IH]; intros b; cbn; [reflexivity |].
  unfold add_all in IH. rewrite IH. reflexivity.
Qed.

(** The deque after a run of appends holds the last [maxlen] of what it
    held and what was appended, in that order. *)
Lemma buf_add_all calls : forall b,
  (length (buf b) <= maxlen b)%nat ->
  buf (add_all b calls) = last_n (maxlen b) (buf b ++ calls).
Proof.
  induction calls as [| [t ev] calls IH]; intros b Hb.
  - cbn. rewrite app_nil_r, last_n_short by exact Hb. reflexivity.
  - change (add_all b ((t, ev) :: calls)) with (add_all (add b t ev) calls).
    rewrite IH.
    + cbn [add buf maxlen]. unfold deque_append.
      rewrite last_n_app_absorb, <- app_assoc. reflexivity.
    + cbn [add buf maxlen]. apply last_n_length.
Qed.

Lemma buf_add_all_init N calls :
  buf (add_all (init N) calls) = last_n N calls.
Proof. rewrite buf_add_all; [reflexivity | cbn; lia]. Qed.

Lemma snapshot_length b now w : (length (snapshot b now w) <= length (buf b))%nat.
Proof. unfold snapshot. rewrite length_map. apply List.filter_length_le. Qed.

Lemma filter_all_true {A} (f : A -> bool) (l : list A) :
  Forall (fun x => f x = true) l -> List.filter f l = l.
Proof.
  induction 1 as [| x l Hx _ IH]; cbn; [reflexivity |].
  rewrite Hx, IH. reflexivity.
Qed.
End Buffer.

(** C1. After any sequence of [add] calls on a buffer of capacity [N],
    [snapshot(w)] is the formatted events, among the last [N] appended (the
    buffered ones), whose timestamp is at least [now - w], in the order they
    were appended, and it has at most [N] lines. *)
Theorem snapshot_after_adds (N : nat) (calls : list TelemetryBuffer.event) (now w : Z) :
  TelemetryBuffer.snapshot (TelemetryBuffer.add_all (TelemetryBuffer.init N) calls) now w
  = map TelemetryBuffer.format_line
        (List.filter (fun e => now - w <=? fst e) (last_n N calls))
  /\ (length (TelemetryBuffer.snapshot
               (TelemetryBuffer.add_all (TelemetryBuffer.init N) calls) now w) <= N)%nat.
Proof.
  split.
  - unfold TelemetryBuffer.snapshot. rewrite buf_add_all_init. reflexivity.
  - etransitivity; [apply snapshot_length |].
    rewrite buf_add_all_init. apply last_n_length.
Qed.

(** C4. With capacity 3 and A, B, C, D appended at t = 0, 1, 2, 3, a snapshot
    whose window reaches back to t = 1 or earlier is the lines of B, C, D in
    that order, and the line of A is not in it.  In general, after
    capacity + 1 appends the buffer holds the appends after the first one, and
    a snapshot whose window covers them is exactly their lines. *)
Theorem eviction_after_capacity_plus_one :
  (forall now w : Z, now - w <= 1 ->
     TelemetryBuffer.snapshot
       (TelemetryBuffer.add_all (TelemetryBuffer.init 3) abcd) now w
     = ["1970-01-01T00:00:01  B"; "1970-01-01T00:00:02  C"; "1970-01-01T00:00:03  D"]
     /\ ~ In (TelemetryBuffer.format_line (0, "A"))
             (TelemetryBuffer.snapshot
                (TelemetryBuffer.add_all (TelemetryBuffer.init 3) abcd) now w))
  /\ (forall (N : nat) (first : TelemetryBuffer.event)
             (rest : list TelemetryBuffer.event) (now w : Z),
        length rest = N ->
        Forall (fun e => now - w <= fst e) rest ->
        TelemetryBuffer.buf
          (TelemetryBuffer.add_all (TelemetryBuffer.init N) (first :: rest)) = rest
        /\ TelemetryBuffer.snapshot
             (TelemetryBuffer.add_all (TelemetryBuffer.init N) (first :: rest)) now w
           = map TelemetryBuffer.format_line rest).
Proof.
  assert (Hgen : forall (N : nat) (first : TelemetryBuffer.event)
             (rest : list TelemetryBuffer.event) (now w : Z),
        length rest = N ->
        Forall (fun e => now - w <= fst e) rest ->
        TelemetryBuffer.buf
          (TelemetryBuffer.add_all (TelemetryBuffer.init N) (first :: rest)) = rest
        /\ TelemetryBuffer.snapshot
             (TelemetryBuffer.add_all (TelemetryBuffer.init N) (first :: rest)) now w
           = map TelemetryBuffer.format_line rest).
  { intros N first rest now w Hlen Hwin.
    assert (Hbuf : TelemetryBuffer.buf
              (TelemetryBuffer.add_all (TelemetryBuffer.init N) (first :: rest)) = rest).
    { rewrite buf_add_all_init.
      change (first :: rest) with ([first] ++ rest). now apply last_n_exact. }
    split; [exact Hbuf |].
    unfold TelemetryBuffer.snapshot. rewrite Hbuf, filter_all_true; [reflexivity |].
    eapply List.Forall_impl; [| exact Hwin]. cbn. intros e He. apply Z.leb_le, He. }
  split; [| exact Hgen].
  intros now w Hw.
  assert (Hs : TelemetryBuffer.snapshot
                 (TelemetryBuffer.add_all (TelemetryBuffer.init 3) abcd) now w
               = map TelemetryBuffer.format_line [(1, "B"); (2, "C"); (3, "D")]).
  { apply (Hgen 3%nat (0, "A")); [reflexivity |].
    repeat constructor; cbn; lia. }
  rewrite Hs. split; [reflexivity |].
  cbn. intros [H | [H | [H | []]]]; discriminate H.
Qed.

(** The general part at capacity 2: the first of three appends is gone. *)
Lemma eviction_after_capacity_plus_one_witness :
  TelemetryBuffer.buf
    (TelemetryBuffer.add_all (TelemetryBuffer.init 2)
       [(5, "[win] editor"); (6, "[key] 'a'"); (8, "[file~] /tmp/x")])
  = [(6, "[key] 'a'"); (8, "[file~] /tmp/x")]
  /\ TelemetryBuffer.snapshot
       (TelemetryBuffer.add_all (TelemetryBuffer.init 2)
          [(5, "[win] editor"); (6, "[key] 'a'"); (8, "[file~] /tmp/x")]) 10 (10 ^ 9)
     = ["1970-01-01T00:00:06  [key] 'a'"; "1970-01-01T00:00:08  [file~] /tmp/x"].
Proof.
  apply (proj2 eviction_after_capacity_plus_one 2%nat (5, "[win] editor")
           [(6, "[key] 'a'"); (8, "[file~] /tmp/x")] 10 (10 ^ 9) eq_refl).
  repeat constructor; cbn; lia.
Defined.

(** ** What [evaluate] sees of the buffer *)

Lemma digit_cases n :
  In (Datetime.digit n) ["0"; "1"; "2"; "3"; "4"; "5"; "6"; "7"; "8"; "9"]%char.
Proof.
  unfold Datetime.digit.
  assert (H : (Z.to_nat (n mod 10) < 10)%nat)
    by (pose proof (Z.mod_pos_bound n 10); lia).
  apply nth_In. exact H.
Qed.

(** A snapshot line opens with the first digit of the year. *)
Lemma format_line_head e :
  exists c rest,
    TelemetryBuffer.format_line e = String c rest
    /\ In c ["0"; "1"; "2"; "3"; "4"; "5"; "6"; "7"; "8"; "9"]%char.
Proof.
  unfold TelemetryBuffer.format_line, Datetime.isoformat, Datetime.pad4.
  cbn [String.append]. eexists _, _. split; [reflexivity | apply digit_cases].
Qed.

(** So no snapshot line starts with a bracketed tag. *)
Lemma format_line_no_tag e s :
  startswith (TelemetryBuffer.format_line e) (String "["%char s) = false.
Proof.
  destruct (format_line_head e) as (c & rest & -> & Hc).
  unfold startswith. cbn [String.prefix].
  destruct (ascii_dec "[" c) as [<- | _]; [| reflexivity].
  cbn in Hc. intuition discriminate.
Qed.

Lemma existsb_tag_snapshot b now w (f : string -> bool) :
  (forall e, f (TelemetryBuffer.format_line e) = false) ->
  existsb f (TelemetryBuffer.snapshot b now w) = false.
Proof.
  intros Hf. unfold TelemetryBuffer.snapshot.
  induction (List.filter _ _) as [| e l IH]; cbn; [reflexivity |].
  rewrite Hf, IH. reflexivity.
Qed.

(** [evaluate] unfolded on what the snapshot can hold: neither [any_input] nor
    the file test is ever true, so only the two clock comparisons decide. *)
Lemma evaluate_by_clock st b now :
  TriggerEngine.evaluate st b now
  = if now - TriggerEngine.last_prompt st >? 15
    then (Some TriggerEngine.idle_pause_reason, st)
    else (None, pruned st now).
Proof.
  unfold TriggerEngine.evaluate, pruned.
  rewrite !existsb_tag_snapshot.
  - cbn [negb andb]. rewrite app_nil_r.
    destruct (Z.gtb_spec (now - TriggerEngine.last_prompt st) 15) as [H | H];
      [reflexivity |].
    destruct (Z.gtb_spec (now - TriggerEngine.last_prompt st) 30) as [H' | _];
      [lia |].
    rewrite andb_false_r. reflexivity.
  - intros e. apply format_line_no_tag.
  - intros e. rewrite !format_line_no_tag. reflexivity.
Qed.

Lemma filter_idem {A} (f : A -> bool) (l : list A) :
  List.filter f (List.filter f l) = List.filter f l.
Proof.
  induction l as [| x l IH]; cbn; [reflexivity |].
  destruct (f x) eqn:Hx; cbn; rewrite ?Hx, IH; reflexivity.
Qed.

Lemma reasons_differ :
  TriggerEngine.idle_pause_reason <> TriggerEngine.file_burst_reason.
Proof. discriminate. Qed.

(** The first rule alone decides whether the idle-pause reason comes back. *)
Lemma evaluate_idle_iff st b now :
  fst (TriggerEngine.evaluate st b now) = Some TriggerEngine.idle_pause_reason
  <-> negb (existsb (fun ev => startswith ev "[key]" || startswith ev "[mouse]")
              (TelemetryBuffer.snapshot b now 6))
      && (now - TriggerEngine.last_prompt st >? 15) = true.
Proof.
  unfold TriggerEngine.evaluate.
  destruct (negb _ && _); cbn [fst].
  - split; reflexivity.
  - split; [| discriminate].
    destruct (_ && _); cbn [fst]; intros H; [| discriminate H].
    exfalso. apply reasons_differ. congruence.
Qed.

(** C2, as stated, fails on the boundary: with nothing in the buffer and
    exactly 15 seconds since [last_prompt], no [[key]] or [[mouse]] event is
    in the trailing 6 seconds and at least 15 seconds have elapsed, yet
    [evaluate] does not return the idle-pause reason. *)
Lemma idle_pause_at_15_seconds :
  ~ (fst (TriggerEngine.evaluate TriggerEngine.init (TelemetryBuffer.init 500) 15)
       = Some TriggerEngine.idle_pause_reason
     <-> recent_input (TelemetryBuffer.init 500) 15 = false
         /\ 15 - TriggerEngine.last_prompt TriggerEngine.init >= 15).
Proof.
  intros [_ H]. cbn in H. discriminate H. split; [reflexivity | lia].
Qed.

(** C2, amended. [evaluate] returns the idle-pause reason only when more than
    15 seconds have elapsed since [last_prompt], and it does return it, leaving
    the engine as it was, whenever more than 15 seconds have elapsed and no
    event tagged [[key]] or [[mouse]] is in the trailing 6 seconds of the
    buffer. *)
Theorem idle_pause_rule (st : TriggerEngine.t) (b : TelemetryBuffer.t) (now : Z) :
  (fst (TriggerEngine.evaluate st b now) = Some TriggerEngine.idle_pause_reason ->
   now - TriggerEngine.last_prompt st > 15)
  /\ (recent_input b now = false ->
      now - TriggerEngine.last_prompt st > 15 ->
      TriggerEngine.evaluate st b now = (Some TriggerEngine.idle_pause_reason, st)).
Proof.
  split.
  - intros H. apply evaluate_idle_iff, andb_true_iff in H as [_ H]. lia.
  - intros _ H. rewrite evaluate_by_clock.
    destruct (Z.gtb_spec (now - TriggerEngine.last_prompt st) 15); [reflexivity | lia].
Qed.

(** Twenty seconds after the last prompt, with only a window event in the
    last six. *)
Lemma idle_pause_rule_witness :
  TriggerEngine.evaluate TriggerEngine.init
    (TelemetryBuffer.add (TelemetryBuffer.init 500) 18 "[win] editor") 20
  = (Some TriggerEngine.idle_pause_reason, TriggerEngine.init).
Proof.
  apply (proj2 (idle_pause_rule TriggerEngine.init
                  (TelemetryBuffer.add (TelemetryBuffer.init 500) 18 "[win] editor") 20)).
  - reflexivity.
  - cbn. lia.
Defined.

Lemma length_pruned_extended (fe : list Z) (now : Z) (seen : bool) :
  (length (List.filter (fun ts => (now - ts <? 30)%Z) fe ++ (if seen then [now] else []))
   <= S (length fe))%nat.
Proof.
  rewrite length_app.
  pose proof (List.filter_length_le (fun ts => now - ts <? 30) fe).
  destruct seen; cbn [length]; lia.
Qed.

(** C3, as stated, fails on its own scenario: with [[file+]] events at
    t = 0, 10, 20 and [last_prompt = 0], the evaluation at t = 25 does not
    return the file-burst reason and the one at t = 41 does not return
    nothing; the first rule answers both. *)
Lemma file_burst_scenario_fails :
  ~ (fst (TriggerEngine.evaluate TriggerEngine.init three_files 25)
       = Some TriggerEngine.file_burst_reason
     /\ fst (TriggerEngine.evaluate
               (snd (TriggerEngine.evaluate TriggerEngine.init three_files 25))
               three_files 41)
        = None).
Proof. intros [_ H]. vm_compute in H. discriminate H. Qed.

(** C3, amended. Entries 30 seconds old or older never count: the reason
    returned is the one returned with the list pruned beforehand. A call adds
    at most one entry to the list (it records calls, not events). The
    file-burst reason is never returned within 30 seconds of [last_prompt],
    nor when the idle-pause rule applies, which is checked first: with more
    than 15 seconds elapsed and no [[key]] or [[mouse]] event in the trailing
    6 seconds the idle-pause reason is returned. So, for [[file+]] events at
    t = 0, 10, 20 with [last_prompt = 0], the evaluations at t = 25 and at
    t = 41 both return the idle-pause reason and leave the engine as it was. *)
Theorem file_burst_rule :
  (forall st b now,
     fst (TriggerEngine.evaluate st b now)
     = fst (TriggerEngine.evaluate (pruned st now) b now))
  /\ (forall st b now,
        (length (TriggerEngine.file_events (snd (TriggerEngine.evaluate st b now)))
         <= S (length (TriggerEngine.file_events st)))%nat)
  /\ (forall st b now,
        now - TriggerEngine.last_prompt st <= 30 ->
        fst (TriggerEngine.evaluate st b now) <> Some TriggerEngine.file_burst_reason)
  /\ (forall st b now,
        recent_input b now = false ->
        now - TriggerEngine.last_prompt st > 15 ->
        fst (TriggerEngine.evaluate st b now) = Some TriggerEngine.idle_pause_reason)
  /\ TriggerEngine.evaluate TriggerEngine.init three_files 25
     = (Some TriggerEngine.idle_pause_reason, TriggerEngine.init)
  /\ TriggerEngine.evaluate TriggerEngine.init three_files 41
     = (Some TriggerEngine.idle_pause_reason, TriggerEngine.init).
Proof.
  refine (conj _ (conj _ (conj _ (conj _ (conj _ _))))).
  - intros st b now. unfold TriggerEngine.evaluate, pruned.
    cbn [TriggerEngine.last_prompt TriggerEngine.file_events].
    rewrite filter_idem.
    destruct (negb _ && _); [reflexivity |].
    destruct (_ && _); reflexivity.
  - intros st b now. unfold TriggerEngine.evaluate.
    destruct (negb _ && _); cbn [snd]; [lia |].
    destruct (_ && _); cbn [snd TriggerEngine.file_events];
      apply length_pruned_extended.
  - intros st b now Hle. unfold TriggerEngine.evaluate.
    destruct (negb _ && _); cbn [fst].
    + intros H. apply reasons_differ. congruence.
    + destruct (Z.gtb_spec (now - TriggerEngine.last_prompt st) 30); [lia |].
      rewrite andb_false_r. discriminate.
  - intros st b now _ H. rewrite evaluate_by_clock.
    destruct (Z.gtb_spec (now - TriggerEngine.last_prompt st) 15); [reflexivity | lia].
  - vm_compute. reflexivity.
  - vm_compute. reflexivity.
Qed.

(** The cooldown and the precedence of the first rule, on the scenario's
    buffer. *)
Lemma file_burst_rule_witness :
  fst (TriggerEngine.evaluate (TriggerEngine.mk 0 [5; 15; 21]) three_files 25)
    <> Some TriggerEngine.file_burst_reason
  /\ fst (TriggerEngine.evaluate (TriggerEngine.mk 0 [5; 15; 21]) three_files 41)
     = Some TriggerEngine.idle_pause_reason.
Proof.
  split.
  - apply (proj1 (proj2 (proj2 file_burst_rule))). cbn. lia.
  - apply (proj1 (proj2 (proj2 (proj2 file_burst_rule)))).
    + reflexivity.
    + cbn. lia.
Defined.

(** C9, as stated, fails when the first rule answers: an engine holding a
    timestamp 100 seconds old still holds it after [evaluate] has returned
    the idle-pause reason. *)
Lemma stale_entry_survives_idle_pause :
  ~ Forall (fun ts => 100 - ts <= 30)
      (TriggerEngine.file_events
         (snd (TriggerEngine.evaluate (TriggerEngine.mk 0 [0])
                 (TelemetryBuffer.init 500) 100))).
Proof.
  vm_compute. intros H. apply Forall_inv in H. apply H. reflexivity.
Qed.

(** C9, amended. A call to [evaluate] that returns the idle-pause reason
    leaves the engine, and so the list, as it was; every other call drops the
    entries 30 seconds old or older, so that afterwards each timestamp of the
    list is less than 30 seconds before the call's time. *)
Theorem file_events_pruned_unless_idle (st : TriggerEngine.t) (b : TelemetryBuffer.t)
    (now : Z) :
  (fst (TriggerEngine.evaluate st b now) = Some TriggerEngine.idle_pause_reason ->
   snd (TriggerEngine.evaluate st b now) = st)
  /\ (fst (TriggerEngine.evaluate st b now) <> Some TriggerEngine.idle_pause_reason ->
      Forall (fun ts => now - ts < 30)
        (TriggerEngine.file_events (snd (TriggerEngine.evaluate st b now)))).
Proof.
  unfold TriggerEngine.evaluate.
  destruct (negb _ && _); cbn [fst snd].
  - split; [reflexivity | congruence].
  - assert (H : Forall (fun ts => now - ts < 30)
                  (List.filter (fun ts => now - ts <? 30) (TriggerEngine.file_events st)
                     ++ (if existsb (fun ev => startswith ev "[file+]")
                              (TelemetryBuffer.snapshot b now 6)
                         then [now] else []))).
    { apply Forall_app. split.
      - apply List.Forall_forall. intros ts Hts.
        apply List.filter_In in Hts as [_ Hts]. lia.
      - destruct (existsb _ _); repeat constructor. lia. }
    split.
    + destruct (_ && _); cbn [fst]; intros E; [| discriminate E].
      exfalso. apply reasons_differ. congruence.
    + intros _. destruct (_ && _); cbn [snd TriggerEngine.file_events]; exact H.
Qed.

(** Ten seconds after a prompt the second rule is reached and the entry
    50 seconds old is dropped. *)
Lemma file_events_pruned_unless_idle_witness :
  Forall (fun ts => 100 - ts < 30)
    (TriggerEngine.file_events
       (snd (TriggerEngine.evaluate (TriggerEngine.mk 90 [50; 80])
               (TelemetryBuffer.init 500) 100))).
Proof.
  apply (proj2 (file_events_pruned_unless_idle (TriggerEngine.mk 90 [50; 80])
                  (TelemetryBuffer.init 500) 100)).
  vm_compute. discriminate.
Defined.

(** ** Frames: what a computation leaves untouched *)
Section Frames.
Context {X : Type} (f : World -> X).

Lemma keeps_ret {A} (a : A) : keeps f (ret a).
Proof. intros w. reflexivity. Qed.

Lemma keeps_raise {A} (e : exn) : keeps f (@raise A e).
Proof. intros w. reflexivity. Qed.

Lemma keeps_lift {A} (o : outcome A) : keeps f (lift o).
Proof. intros w. reflexivity. Qed.

Lemma keeps_get : keeps f get.
Proof. intros w. reflexivity. Qed.

Lemma keeps_modify (g : World -> World) :
  (forall w, f (g w) = f w) -> keeps f (modify g).
Proof. intros H w. apply H. Qed.

Lemma keeps_bind {A B} (m : M A) (k : A -> M B) :
  keeps f m -> (forall a, keeps f (k a)) -> keeps f (bind m k).
Proof.
  intros Hm Hk w. unfold bind. specialize (Hm w).
  destruct (m w) as [[a | e] w']; cbn [snd] in *.
  - rewrite Hk. exact Hm.
  - exact Hm.
Qed.
End Frames.

(** ** Stepping through a computation *)

Section Wp.
Context {A : Type} (Q : outcome A -> World -> Prop) (w : World).

Lemma wp_bind {B} (m : M B) (k : B -> M A) :
  wp m (fun o w' => match o with
                    | Return b => wp (k b) Q w'
                    | Raise e => Q (Raise e) w'
                    end) w ->
  wp (bind m k) Q w.
Proof.
  unfold wp, bind. destruct (m w) as [[b | e] w']; cbn [fst snd]; auto.
Qed.

Lemma wp_ret (a : A) : Q (Return a) w -> wp (ret a) Q w.
Proof. exact (fun H => H). Qed.

Lemma wp_raise (e : exn) : Q (Raise e) w -> wp (raise e) Q w.
Proof. exact (fun H => H). Qed.

Lemma wp_lift (o : outcome A) : Q o w -> wp (lift o) Q w.
Proof. exact (fun H => H). Qed.
End Wp.

Section WpPrimitives.
Context (w : World).

Lemma wp_get (Q : outcome World -> World -> Prop) : Q (Return w) w -> wp get Q w.
Proof. exact (fun H => H). Qed.

Lemma wp_modify (Q : outcome unit -> World -> Prop) (g : World -> World) :
  Q (Return tt) (g w) -> wp (modify g) Q w.
Proof. exact (fun H => H). Qed.

Lemma wp_time_time (Q : outcome Z -> World -> Prop) :
  Q (Return (clock w)) w -> wp Sys.time_time Q w.
Proof. exact (fun H => H). Qed.

Lemma wp_elapse (Q : outcome unit -> World -> Prop) (d : Z) :
  Q (Return tt) (set_clock (clock w + d) w) -> wp (Sys.elapse d) Q w.
Proof. exact (fun H => H). Qed.

Lemma wp_write_file (Q : outcome unit -> World -> Prop) fn es :
  Q (Return tt) (set_files (<[fn := es]> (files w)) w) ->
  wp (Sys.write_file fn es) Q w.
Proof. exact (fun H => H). Qed.

Lemma wp_append_file (Q : outcome unit -> World -> Prop) fn es :
  Q (Return tt) (set_files (<[fn := default [] (files w !! fn) ++ es]> (files w)) w) ->
  wp (Sys.append_file fn es) Q w.
Proof. exact (fun H => H). Qed.

Lemma wp_open_rb (Q : outcome (list entry) -> World -> Prop) fn es :
  files w !! fn = Some es -> Q (Return es) w -> wp (Sys.open_rb fn) Q w.
Proof. intros E H. unfold wp, Sys.open_rb. rewrite E. exact H. Qed.

Lemma wp_os_remove (Q : outcome unit -> World -> Prop) fn es :
  files w !! fn = Some es ->
  Q (Return tt) (set_files (delete fn (files w)) w) ->
  wp (Sys.os_remove fn) Q w.
Proof. intros E H. unfold wp, Sys.os_remove. rewrite E. exact H. Qed.

Lemma wp_telemetry_snapshot (Q : outcome (list string) -> World -> Prop) secs :
  Q (Return (TelemetryBuffer.snapshot (telemetry w) (clock w) secs)) w ->
  wp (Sys.telemetry_snapshot secs) Q w.
Proof. exact (fun H => H). Qed.

Lemma wp_trigger_evaluate (Q : outcome (option string) -> World -> Prop) :
  Q (Return (fst (TriggerEngine.evaluate (trigger w) (telemetry w) (clock w))))
    (set_trigger (snd (TriggerEngine.evaluate (trigger w) (telemetry w) (clock w))) w) ->
  wp Sys.trigger_evaluate Q w.
Proof.
  unfold wp, Sys.trigger_evaluate.
  destruct (TriggerEngine.evaluate _ _ _). exact (fun H => H).
Qed.

Lemma wp_after_1000 (Q : outcome unit -> World -> Prop) :
  Q (Return tt) (set_timers (timers w ++ [clock w + 1]) w) -> wp Sys.after_1000 Q w.
Proof. exact (fun H => H). Qed.
End WpPrimitives.

(** One step of a computation, and the world read back through its fields. *)
Ltac world_simpl :=
  lazy beta iota;
  cbn [clock telemetry trigger stop_event running_threads start_time files timers
       set_clock set_telemetry set_trigger set_stop_event set_running_threads
       set_start_time set_files set_timers].

Ltac wp_step :=
  lazymatch goal with
  | |- wp (bind _ _) _ _ => apply wp_bind
  | |- wp (ret _) _ _ => apply wp_ret
  | |- wp (raise _) _ _ => apply wp_raise
  | |- wp (lift _) _ _ => apply wp_lift
  | |- wp get _ _ => apply wp_get
  | |- wp (modify _) _ _ => apply wp_modify
  | |- wp Sys.time_time _ _ => apply wp_time_time
  | |- wp (Sys.elapse _) _ _ => apply wp_elapse
  | |- wp (Sys.write_file _ _) _ _ => apply wp_write_file
  | |- wp (Sys.append_file _ _) _ _ => apply wp_append_file
  | |- wp (Sys.telemetry_snapshot _) _ _ => apply wp_telemetry_snapshot
  | |- wp Sys.trigger_evaluate _ _ => apply wp_trigger_evaluate
  | |- wp Sys.after_1000 _ _ => apply wp_after_1000
  | |- wp (Sys.open_rb _) _ _ =>
      eapply wp_open_rb; [world_simpl; apply lookup_insert_eq |]
  | |- wp (Sys.os_remove _) _ _ =>
      eapply wp_os_remove; [world_simpl; apply lookup_insert_eq |]
  end.

Ltac wp_steps := world_simpl; repeat (wp_step; world_simpl).

Lemma answer_file_not_log env w : answer_file env w <> "cta_log.jsonl".
Proof. unfold answer_file. cbn [String.append]. discriminate. Qed.

(** C5, as stated, fails when the transcription fails: the recording made at
    clock reading 101 is still there after [ask_cta_question] has raised. *)
Lemma recording_left_after_failed_transcription :
  ~ (files (snd (CTAGUI.ask_cta_question
                   (env_of (Return "Why that file?") true (Return tt)
                           (Raise TranscriptionError) (Return tt))
                   "Why that file?" [] (CTAGUI.new 100 ∅)))
       !! "ans_101.wav" = None).
Proof. vm_compute. discriminate. Qed.

(** C5, amended. When the user accepts to record: if the capture and the
    transcription both succeed, the recording is removed; if the capture
    succeeds and the transcription fails, [ask_cta_question] raises and the
    recording stays; if the capture fails, [ask_cta_question] raises and the
    files are as they were. *)
Theorem recording_removed_on_success_only (env : Env) (question : string)
    (ctx : list string) (w : World) :
  (forall m, askyesno env m = true) ->
  (forall text, capture env = Return tt -> transcription env = Return text ->
     files (snd (CTAGUI.ask_cta_question env question ctx w)) !! answer_file env w = None)
  /\ (forall e, capture env = Return tt -> transcription env = Raise e ->
        fst (CTAGUI.ask_cta_question env question ctx w) = Raise e
        /\ files (snd (CTAGUI.ask_cta_question env question ctx w)) !! answer_file env w
           = Some [Audio])
  /\ (forall e, capture env = Raise e ->
        fst (CTAGUI.ask_cta_question env question ctx w) = Raise e
        /\ files (snd (CTAGUI.ask_cta_question env question ctx w)) = files w).
Proof.
  intros Hyes.
  pose proof (answer_file_not_log env w) as Hne. unfold answer_file in *.
  set (wav := "ans_" +:+ str_of_int (clock w + took env AskYesNo) +:+ ".wav") in *.
  refine (conj _ (conj _ _)).
  - intros text Hcap Htr.
    change (wp (CTAGUI.ask_cta_question env question ctx)
              (fun _ w' => files w' !! wav = None) w).
    unfold CTAGUI.ask_cta_question, record_audio, transcribe_audio.
    wp_steps. rewrite Hyes. wp_steps. rewrite Hcap. wp_steps.
    rewrite Htr. wp_steps.
    destruct (open_log env); wp_steps.
    + rewrite lookup_insert_ne by congruence. apply lookup_delete_eq.
    + apply lookup_delete_eq.
  - intros e Hcap Htr.
    change (wp (CTAGUI.ask_cta_question env question ctx)
              (fun o w' => o = Raise e /\ files w' !! wav = Some [Audio]) w).
    unfold CTAGUI.ask_cta_question, record_audio, transcribe_audio.
    wp_steps. rewrite Hyes. wp_steps. rewrite Hcap. wp_steps.
    rewrite Htr. wp_steps. split; [reflexivity | apply lookup_insert_eq].
  - intros e Hcap.
    change (wp (CTAGUI.ask_cta_question env question ctx)
              (fun o w' => o = Raise e /\ files w' = files w) w).
    unfold CTAGUI.ask_cta_question, record_audio, transcribe_audio.
    wp_steps. rewrite Hyes. wp_steps. rewrite Hcap. wp_steps. split; reflexivity.
Qed.

(** An accepted answer transcribed and removed, and one whose transcription
    fails. *)
Lemma recording_removed_on_success_only_witness :
  files (snd (CTAGUI.ask_cta_question
                (env_of (Return "Why that file?") true (Return tt)
                        (Return "It was the newest.") (Return tt))
                "Why that file?" [] (CTAGUI.new 100 ∅)))
    !! "ans_101.wav" = None
  /\ files (snd (CTAGUI.ask_cta_question
                   (env_of (Return "Why that file?") true (Return tt)
                           (Raise TranscriptionError) (Return tt))
                   "Why that file?" [] (CTAGUI.new 100 ∅)))
       !! "ans_101.wav" = Some [Audio].
Proof.
  split.
  - apply (proj1 (recording_removed_on_success_only
                    (env_of (Return "Why that file?") true (Return tt)
                            (Return "It was the newest.") (Return tt))
                    "Why that file?" [] (CTAGUI.new 100 ∅) (fun _ => eq_refl))
             "It was the newest." eq_refl eq_refl).
  - apply (proj1 (proj2 (recording_removed_on_success_only
                    (env_of (Return "Why that file?") true (Return tt)
                            (Raise TranscriptionError) (Return tt))
                    "Why that file?" [] (CTAGUI.new 100 ∅) (fun _ => eq_refl)))
             TranscriptionError eq_refl eq_refl).
Defined.

(** C8, as stated, fails when the transcription fails: no record at all is
    written to [cta_log.jsonl]. *)
Lemma no_record_after_failed_transcription :
  ~ exists r,
      files (snd (CTAGUI.ask_cta_question
                    (env_of (Return "Why that file?") true (Return tt)
                            (Raise TranscriptionError) (Return tt))
                    "Why that file?" ["1970-01-01T00:01:39  [win] editor"]
                    (CTAGUI.new 100 ∅)))
        !! "cta_log.jsonl" = Some [Json r].
Proof. intros [r H]. vm_compute in H. discriminate H. Qed.

(** C8, amended. When the user declines to record and the log can be opened,
    [ask_cta_question] returns and appends to [cta_log.jsonl] exactly one
    record, with the question, no answer, and the last 20 context lines.
    When the user accepts and the recording or the transcription fails,
    [ask_cta_question] raises and [cta_log.jsonl] is as it was. *)
Theorem qa_record_when_declined (env : Env) (question : string) (ctx : list string)
    (w : World) :
  ((forall m, askyesno env m = false) ->
   open_log env = Return tt ->
   fst (CTAGUI.ask_cta_question env question ctx w) = Return tt
   /\ files (snd (CTAGUI.ask_cta_question env question ctx w))
      = <["cta_log.jsonl" :=
            default [] (files w !! "cta_log.jsonl")
            ++ [Json (mk_qa (Datetime.isoformat
                               (Datetime.fromtimestamp (clock w + took env AskYesNo)))
                            question None (last_n 20 ctx))]]> (files w))
  /\ ((forall m, askyesno env m = true) ->
      forall e,
        capture env = Raise e
        \/ (capture env = Return tt /\ transcription env = Raise e) ->
        fst (CTAGUI.ask_cta_question env question ctx w) = Raise e
        /\ files (snd (CTAGUI.ask_cta_question env question ctx w)) !! "cta_log.jsonl"
           = files w !! "cta_log.jsonl").
Proof.
  split.
  - intros Hno Hlog.
    change (wp (CTAGUI.ask_cta_question env question ctx)
              (fun o w' =>
                 o = Return tt
                 /\ files w'
                    = <["cta_log.jsonl" :=
                          default [] (files w !! "cta_log.jsonl")
                          ++ [Json (mk_qa (Datetime.isoformat
                                             (Datetime.fromtimestamp
                                                (clock w + took env AskYesNo)))
                                          question None (last_n 20 ctx))]]> (files w)) w).
    unfold CTAGUI.ask_cta_question.
    wp_steps. rewrite Hno. wp_steps. rewrite Hlog. wp_steps.
    split; reflexivity.
  - intros Hyes e Hfail.
    pose proof (answer_file_not_log env w) as Hne. unfold answer_file in Hne.
    change (wp (CTAGUI.ask_cta_question env question ctx)
              (fun o w' =>
                 o = Raise e /\ files w' !! "cta_log.jsonl" = files w !! "cta_log.jsonl") w).
    unfold CTAGUI.ask_cta_question, record_audio, transcribe_audio.
    wp_steps. rewrite Hyes. wp_steps.
    destruct Hfail as [Hcap | [Hcap Htr]]; rewrite Hcap; wp_steps.
    + split; reflexivity.
    + rewrite Htr. wp_steps. split; [reflexivity |].
      apply lookup_insert_ne. exact Hne.
Qed.

(** A declined recording, with one earlier record already in the log. *)
Lemma qa_record_when_declined_witness :
  files (snd (CTAGUI.ask_cta_question
                (env_of (Return "Why that file?") false (Return tt)
                        (Return "unused") (Return tt))
                "Why that file?" ["line 1"; "line 2"]
                (CTAGUI.new 100 {["cta_log.jsonl" := [Json (mk_qa "t" "q" None [])]]})))
    !! "cta_log.jsonl"
  = Some [Json (mk_qa "t" "q" None []);
          Json (mk_qa "1970-01-01T00:01:41" "Why that file?" None ["line 1"; "line 2"])].
Proof.
  rewrite (proj2 (proj1 (qa_record_when_declined
                    (env_of (Return "Why that file?") false (Return tt)
                            (Return "unused") (Return tt))
                    "Why that file?" ["line 1"; "line 2"]
                    (CTAGUI.new 100 {["cta_log.jsonl" := [Json (mk_qa "t" "q" None [])]]}))
                  (fun _ => eq_refl) eq_refl)).
  vm_compute. reflexivity.
Defined.

(** ** The monitor loop *)

Lemma wp_of_keeps {A X} (f : World -> X) (m : M A) (Q : outcome A -> World -> Prop) w :
  keeps f m -> (forall o w', f w' = f w -> Q o w') -> wp m Q w.
Proof. intros Hk HQ. apply HQ, Hk. Qed.

(** Frames of a computation, step by step; a field the computation writes
    makes it fail. *)
Ltac keeps_steps :=
  repeat lazymatch goal with
    | |- keeps _ (bind _ _) => apply keeps_bind; [| intros ?]
    | |- keeps _ (if ?c then _ else _) => destruct c
    | |- keeps _ (match ?o with _ => _ end) => destruct o
    | |- keeps _ (Sys.open_rb _) =>
        let w := fresh "w" in
        intros w; unfold Sys.open_rb; destruct (files w !! _); reflexivity
    | |- keeps _ (Sys.os_remove _) =>
        let w := fresh "w" in
        intros w; unfold Sys.os_remove; destruct (files w !! _); reflexivity
    | |- keeps _ Sys.trigger_evaluate =>
        let w := fresh "w" in
        intros w; unfold Sys.trigger_evaluate;
        destruct (TriggerEngine.evaluate _ _ _); reflexivity
    | |- keeps _ _ => let w := fresh "w" in intros w; reflexivity
    end.

Lemma monitor_loop_cycle env :
  CTAGUI.monitor_loop env = (w <- get ;; cycle env w ;;; Sys.after_1000).
Proof. reflexivity. Qed.

Lemma cycle_keeps_timers env w0 : keeps timers (cycle env w0).
Proof.
  unfold cycle, llm_generate_question, CTAGUI.ask_cta_question, record_audio,
    transcribe_audio.
  keeps_steps.
Qed.

Lemma cycle_keeps_telemetry env w0 : keeps telemetry (cycle env w0).
Proof.
  unfold cycle, llm_generate_question, CTAGUI.ask_cta_question, record_audio,
    transcribe_audio.
  keeps_steps.
Qed.

Lemma cycle_keeps_start_time env w0 : keeps start_time (cycle env w0).
Proof.
  unfold cycle, llm_generate_question, CTAGUI.ask_cta_question, record_audio,
    transcribe_audio.
  keeps_steps.
Qed.

Lemma cycle_keeps_stop_event env w0 : keeps stop_event (cycle env w0).
Proof.
  unfold cycle, llm_generate_question, CTAGUI.ask_cta_question, record_audio,
    transcribe_audio.
  keeps_steps.
Qed.

Lemma cycle_keeps_running_threads env w0 : keeps running_threads (cycle env w0).
Proof.
  unfold cycle, llm_generate_question, CTAGUI.ask_cta_question, record_audio,
    transcribe_audio.
  keeps_steps.
Qed.

Lemma monitor_loop_keeps {X} (f : World -> X) env :
  (forall w0, keeps f (cycle env w0)) ->
  (forall w v, f (set_timers v w) = f w) ->
  keeps f (CTAGUI.monitor_loop env).
Proof.
  intros Hc Hf. rewrite monitor_loop_cycle.
  apply keeps_bind; [apply keeps_get | intros w0].
  apply keeps_bind; [apply Hc | intros _].
  intros w. apply Hf.
Qed.

(** Both reasons are non-empty strings, hence true in [if hint:]. *)
Lemma evaluate_hint_truthy st b now h :
  fst (TriggerEngine.evaluate st b now) = Some h -> CTAGUI.truthy (Some h) = true.
Proof.
  unfold TriggerEngine.evaluate.
  destruct (negb _ && _); cbn [fst].
  - intros [= <-]. reflexivity.
  - destruct (_ && _); cbn [fst]; [intros [= <-]; reflexivity | discriminate].
Qed.

Lemma evaluate_last_prompt st b now :
  TriggerEngine.last_prompt (snd (TriggerEngine.evaluate st b now))
  = TriggerEngine.last_prompt st.
Proof.
  unfold TriggerEngine.evaluate.
  destruct (negb _ && _); [reflexivity |].
  destruct (_ && _); reflexivity.
Qed.

(** What [monitor_loop] does once its cycle has ended: the next tick is
    scheduled after a return and only then. *)
Lemma monitor_loop_after_cycle env w (Q : outcome unit -> World -> Prop) :
  (forall w', timers w' = timers w ->
     Q (Return tt) (set_timers (timers w ++ [clock w' + 1]) w')) ->
  (forall e w', timers w' = timers w -> Q (Raise e) w') ->
  wp (CTAGUI.monitor_loop env) Q w.
Proof.
  intros Hret Hraise. rewrite monitor_loop_cycle. wp_steps.
  apply (wp_of_keeps timers); [apply cycle_keeps_timers |].
  intros [[] | e] w' Hw'; wp_steps.
  - rewrite Hw'. apply Hret, Hw'.
  - apply Hraise, Hw'.
Qed.

(** An error in the cycle comes out of [monitor_loop]. *)
Lemma cycle_error_raises env e w h :
  cycle_error env e ->
  stop_event w = false ->
  fst (TriggerEngine.evaluate (trigger w) (telemetry w) (clock w)) = Some h ->
  fst (CTAGUI.monitor_loop env w) = Raise e.
Proof.
  intros Herr Hstop Hhint.
  pose proof (evaluate_hint_truthy _ _ _ _ Hhint) as Htruthy.
  change (wp (CTAGUI.monitor_loop env) (fun o _ => o = Raise e) w).
  unfold CTAGUI.monitor_loop. wp_steps. rewrite Hstop. cbn [negb]. wp_steps.
  rewrite Hhint, Htruthy. wp_steps.
  unfold llm_generate_question, CTAGUI.ask_cta_question, record_audio,
    transcribe_audio.
  destruct Herr as [Hq | q Hq Hyes Hcap | q Hq Hyes Hcap Htr | q Hq Hno Hlog
                   | q text Hq Hyes Hcap Htr Hlog];
    wp_steps; rewrite Hq; wp_steps.
  - reflexivity.
  - rewrite Hyes. wp_steps. rewrite Hcap. wp_steps. reflexivity.
  - rewrite Hyes. wp_steps. rewrite Hcap. wp_steps. rewrite Htr. wp_steps.
    reflexivity.
  - rewrite Hno. wp_steps. rewrite Hlog. wp_steps. reflexivity.
  - rewrite Hyes. wp_steps. rewrite Hcap. wp_steps. rewrite Htr. wp_steps.
    rewrite Hlog. wp_steps. reflexivity.
Qed.

(** C6, as stated, fails: the first call of [monitor_loop], 100 seconds after
    the epoch with nothing in the buffer, fires the idle-pause rule; the
    question generation raises, and no next tick is scheduled. *)
Lemma no_tick_after_model_error :
  ~ exists due,
      In due (timers (snd (CTAGUI.monitor_loop
                             (env_of (Raise ModelError) false (Return tt)
                                     (Return "unused") (Return tt))
                             (CTAGUI.new 100 ∅)))).
Proof. intros [due H]. vm_compute in H. exact H. Qed.

(** C6, amended. An error inside the interaction cycle (question generation,
    recording, transcription or log write) comes out of [monitor_loop]; when
    [monitor_loop] raises, it has scheduled no next tick, and with no other
    timer pending the event loop never runs it again. When it returns, it has
    scheduled exactly one more tick. A stop request does not end the ticking:
    with the stop signal set, [monitor_loop] skips the evaluation and
    schedules its next tick one second later. *)
Theorem monitor_loop_reschedules_unless_raised (env : Env) (w : World) :
  (forall e h,
     cycle_error env e ->
     stop_event w = false ->
     fst (TriggerEngine.evaluate (trigger w) (telemetry w) (clock w)) = Some h ->
     fst (CTAGUI.monitor_loop env w) = Raise e)
  /\ (forall e,
        fst (CTAGUI.monitor_loop env w) = Raise e ->
        timers (snd (CTAGUI.monitor_loop env w)) = timers w
        /\ (timers w = [] ->
            forall env',
              CTAGUI.mainloop_timer env' (snd (CTAGUI.monitor_loop env w))
              = snd (CTAGUI.monitor_loop env w)))
  /\ (fst (CTAGUI.monitor_loop env w) = Return tt ->
      exists due, timers (snd (CTAGUI.monitor_loop env w)) = timers w ++ [due])
  /\ (stop_event w = true ->
      CTAGUI.monitor_loop env w
      = (Return tt, set_timers (timers w ++ [clock w + 1]) w)).
Proof.
  refine (conj _ (conj _ (conj _ _))).
  - intros e h. apply cycle_error_raises.
  - intros e.
    change (wp (CTAGUI.monitor_loop env)
              (fun o w' =>
                 o = Raise e ->
                 timers w' = timers w
                 /\ (timers w = [] ->
                     forall env', CTAGUI.mainloop_timer env' w' = w')) w).
    apply monitor_loop_after_cycle.
    + intros w' _ H. discriminate H.
    + intros e' w' Hw' _. split; [exact Hw' |].
      intros Hnil env'. unfold CTAGUI.mainloop_timer. rewrite Hw', Hnil. reflexivity.
  - change (wp (CTAGUI.monitor_loop env)
              (fun o w' => o = Return tt -> exists due, timers w' = timers w ++ [due]) w).
    apply monitor_loop_after_cycle.
    + intros w' _ _. eexists. reflexivity.
    + intros e w' _ H. discriminate H.
  - intros Hstop. unfold CTAGUI.monitor_loop, bind, get. rewrite Hstop. reflexivity.
Qed.

(** A failed question generation on the first tick, and a tick with the stop
    signal set. *)
Lemma monitor_loop_reschedules_unless_raised_witness :
  fst (CTAGUI.monitor_loop
         (env_of (Raise ModelError) false (Return tt) (Return "unused") (Return tt))
         (CTAGUI.new 100 ∅))
  = Raise ModelError
  /\ timers (snd (CTAGUI.monitor_loop
                    (env_of (Return "Why?") false (Return tt) (Return "unused")
                            (Return tt))
                    (set_stop_event true (CTAGUI.new 100 ∅))))
     = [101].
Proof.
  split.
  - apply (proj1 (monitor_loop_reschedules_unless_raised
                    (env_of (Raise ModelError) false (Return tt) (Return "unused")
                            (Return tt))
                    (CTAGUI.new 100 ∅))
             ModelError TriggerEngine.idle_pause_reason).
    + apply error_in_question. reflexivity.
    + reflexivity.
    + reflexivity.
  - rewrite (proj2 (proj2 (proj2 (monitor_loop_reschedules_unless_raised
                    (env_of (Return "Why?") false (Return tt) (Return "unused")
                            (Return tt))
                    (set_stop_event true (CTAGUI.new 100 ∅))))) eq_refl).
    reflexivity.
Defined.

(** C7. When the question generation fails, [monitor_loop] leaves
    [last_prompt] and every file, [cta_log.jsonl] among them, as they were;
    and when a trigger fired, the failure comes out of [monitor_loop]. *)
Theorem failed_question_generation (env : Env) (w : World) (e : exn) :
  (forall s m, chat_completion env s m = Raise e) ->
  TriggerEngine.last_prompt (trigger (snd (CTAGUI.monitor_loop env w)))
  = TriggerEngine.last_prompt (trigger w)
  /\ files (snd (CTAGUI.monitor_loop env w)) = files w
  /\ (stop_event w = false ->
      forall h,
        fst (TriggerEngine.evaluate (trigger w) (telemetry w) (clock w)) = Some h ->
        fst (CTAGUI.monitor_loop env w) = Raise e).
Proof.
  intros Hq.
  cut ((TriggerEngine.last_prompt (trigger (snd (CTAGUI.monitor_loop env w)))
        = TriggerEngine.last_prompt (trigger w)
        /\ files (snd (CTAGUI.monitor_loop env w)) = files w)
       /\ (stop_event w = false ->
           forall h,
             fst (TriggerEngine.evaluate (trigger w) (telemetry w) (clock w)) = Some h ->
             fst (CTAGUI.monitor_loop env w) = Raise e)).
  { intros [[H1 H2] H3]. exact (conj H1 (conj H2 H3)). }
  split.
  - change (wp (CTAGUI.monitor_loop env)
              (fun _ w' =>
                 TriggerEngine.last_prompt (trigger w')
                 = TriggerEngine.last_prompt (trigger w)
                 /\ files w' = files w) w).
    unfold CTAGUI.monitor_loop. wp_steps.
    destruct (stop_event w); cbn [negb]; wp_steps; [split; reflexivity |].
    destruct (fst (TriggerEngine.evaluate _ _ _)) as [h |] eqn:Hh; wp_steps.
    + destruct (CTAGUI.truthy (Some h)); wp_steps.
      * unfold llm_generate_question. wp_steps. rewrite Hq. wp_steps.
        split; [apply evaluate_last_prompt | reflexivity].
      * split; [apply evaluate_last_prompt | reflexivity].
    + split; [apply evaluate_last_prompt | reflexivity].
  - intros Hstop h Hh. eapply cycle_error_raises; eauto using error_in_question.
Qed.

(** The first tick, 100 seconds after the epoch, with a failing model. *)
Lemma failed_question_generation_witness :
  TriggerEngine.last_prompt
    (trigger (snd (CTAGUI.monitor_loop
                     (env_of (Raise ModelError) true (Return tt) (Return "unused")
                             (Return tt))
                     (CTAGUI.new 100 ∅)))) = 0
  /\ files (snd (CTAGUI.monitor_loop
                   (env_of (Raise ModelError) true (Return tt) (Return "unused")
                           (Return tt))
                   (CTAGUI.new 100 ∅))) = ∅
  /\ fst (CTAGUI.monitor_loop
            (env_of (Raise ModelError) true (Return tt) (Return "unused")
                    (Return tt))
            (CTAGUI.new 100 ∅)) = Raise ModelError.
Proof.
  pose proof (failed_question_generation
                (env_of (Raise ModelError) true (Return tt) (Return "unused")
                        (Return tt))
                (CTAGUI.new 100 ∅) ModelError (fun _ _ => eq_refl)) as (H1 & H2 & H3).
  refine (conj H1 (conj H2 _)).
  exact (H3 eq_refl TriggerEngine.idle_pause_reason eq_refl).
Defined.

(** ** Stop and start *)

Lemma add_all_app b l1 l2 :
  TelemetryBuffer.add_all (TelemetryBuffer.add_all b l1) l2
  = TelemetryBuffer.add_all b (l1 ++ l2).
Proof. unfold TelemetryBuffer.add_all. rewrite fold_left_app. reflexivity. Qed.

Lemma set_clock_set_telemetry c c' b b' w :
  set_clock c (set_telemetry b (set_telemetry b' (set_clock c' w)))
  = set_clock c (set_telemetry b w).
Proof. reflexivity. Qed.

(** Joining the producers: their last events are appended, in order, each at
    the clock reading it was made at; nothing else changes but the clock. *)
Lemma wp_drain evs : forall w (Q : outcome unit -> World -> Prop),
  Q (Return tt)
    (set_clock (clock w + seconds evs)
       (set_telemetry
          (TelemetryBuffer.add_all (telemetry w) (timed (clock w) evs)) w)) ->
  wp (CTAGUI.drain evs) Q w.
Proof.
  induction evs as [| [d ev] evs IH]; intros w Q HQ.
  - cbn [CTAGUI.drain]. wp_steps.
    cbn [seconds fold_right] in HQ. rewrite Z.add_0_r in HQ. destruct w. exact HQ.
  - cbn [CTAGUI.drain]. wp_steps. unfold Sys.telemetry_add. wp_steps.
    apply IH. world_simpl.
    rewrite set_clock_set_telemetry, <- Z.add_assoc. exact HQ.
Qed.

(** [stop_task] after a [start_task]: it returns, having appended only what
    the producers had in hand, left the engine alone, and written the
    session log: the snapshot of the buffer taken once the producers are
    joined. *)
Lemma stop_task_spec env w t0 :
  start_time w = Some t0 ->
  wp (CTAGUI.stop_task env)
     (fun o w' =>
        o = Return tt
        /\ telemetry w' = TelemetryBuffer.add_all (telemetry w) (late env w)
        /\ trigger w' = trigger w
        /\ start_time w' = Some t0
        /\ stop_event w' = true
        /\ running_threads w' = []
        /\ clock w' = dump_time env w + took env ShowInfo
        /\ files w'
           = <["session_" +:+ str_of_int t0 +:+ ".log" :=
                 map Line (TelemetryBuffer.snapshot (telemetry w') (dump_time env w)
                             (10 ^ 9))]>
               (files w)) w.
Proof.
  intros Hstart.
  unfold CTAGUI.stop_task, CTAGUI.join_threads, CTAGUI.dump_log, late, dump_time.
  wp_steps. destruct (running_threads w) as [| th ths]; wp_steps.
  - rewrite Hstart. wp_steps. repeat split; eauto.
  - apply wp_drain. wp_steps. rewrite Hstart. wp_steps.
    repeat split; eauto.
Qed.

Lemma monitor_loop_stopped env w :
  stop_event w = true ->
  CTAGUI.monitor_loop env w = (Return tt, set_timers (timers w ++ [clock w + 1]) w).
Proof. intros H. unfold CTAGUI.monitor_loop, bind, get. rewrite H. reflexivity. Qed.

(** While stopped, with the producers joined, nothing touches the buffer,
    the engine or the session's start time. *)
Lemma run_stopped idle : forall w,
  stop_event w = true -> running_threads w = [] ->
  telemetry (run idle w) = telemetry w
  /\ trigger (run idle w) = trigger w
  /\ start_time (run idle w) = start_time w.
Proof.
  induction idle as [| a idle IH]; intros w Hstop Hthreads; [repeat split |].
  change (run (a :: idle) w) with (run idle (act w a)).
  assert (H : telemetry (act w a) = telemetry w /\ trigger (act w a) = trigger w
              /\ start_time (act w a) = start_time w
              /\ stop_event (act w a) = true /\ running_threads (act w a) = []).
  { destruct a as [d ev | env]; cbn [act].
    - unfold CTAGUI.produce. rewrite Hthreads. repeat split; assumption.
    - unfold CTAGUI.mainloop_timer. destruct (timers w) as [| due rest].
      + repeat split; assumption.
      + rewrite monitor_loop_stopped by exact Hstop.
        repeat split; assumption. }
  destruct H as (Ht & Hg & Hs & Hstop' & Hthreads').
  destruct (IH (act w a) Hstop' Hthreads') as (IH1 & IH2 & IH3).
  repeat split; congruence.
Qed.

(** Whatever happens in a session, the buffer only receives appends and the
    start time stays. *)
Lemma run_appends acts : forall w,
  start_time (run acts w) = start_time w
  /\ exists appended,
       telemetry (run acts w) = TelemetryBuffer.add_all (telemetry w) appended.
Proof.
  induction acts as [| a acts IH]; intros w.
  - split; [reflexivity | exists []; reflexivity].
  - change (run (a :: acts) w) with (run acts (act w a)).
    destruct (IH (act w a)) as (IHs & l & IHt).
    assert (H : start_time (act w a) = start_time w
                /\ exists l0, telemetry (act w a)
                              = TelemetryBuffer.add_all (telemetry w) l0).
    { destruct a as [d ev | env]; cbn [act].
      - unfold CTAGUI.produce. destruct (running_threads w).
        + split; [reflexivity | exists []; reflexivity].
        + split; [reflexivity |]. exists [(clock w + d, ev)]. reflexivity.
      - unfold CTAGUI.mainloop_timer. destruct (timers w) as [| due rest].
        + split; [reflexivity | exists []; reflexivity].
        + split.
          * rewrite (monitor_loop_keeps start_time);
              [reflexivity | apply cycle_keeps_start_time | reflexivity].
          * exists []. rewrite (monitor_loop_keeps telemetry);
              [reflexivity | apply cycle_keeps_telemetry | reflexivity]. }
    destruct H as (Hs & l0 & Ht).
    split; [congruence |].
    exists (l0 ++ l). rewrite IHt, Ht. apply add_all_app.
Qed.

Lemma In_snapshot e b now w :
  In e (TelemetryBuffer.buf b) -> now - w <= fst e ->
  In (TelemetryBuffer.format_line e) (TelemetryBuffer.snapshot b now w).
Proof.
  intros Hin Hw. unfold TelemetryBuffer.snapshot.
  apply in_map, List.filter_In. split; [exact Hin | apply Z.leb_le, Hw].
Qed.

(** C10. After a stop and a new start, whatever happened in between, the
    engine ([last_prompt] and the file-event list) is as it was before the
    stop, and the buffer is the one before the stop with the producers' last
    events appended: nothing was cleared.  Whatever the new session then
    does, at its stop the buffer is still the old one with events appended,
    and the session log named after the new start time holds exactly the
    snapshot [dump_log] takes of that buffer, at the clock reading of the
    dump, once the producers are joined: the line of every event of the
    previous session that is still in the buffer and inside the window of
    10^9 seconds at that reading is in the new session's log. *)
Theorem stop_start_keeps_buffer_and_engine (env1 env2 : Env) (idle acts : list action)
    (w : World) (t0 : Z) :
  start_time w = Some t0 ->
  trigger (restarted env1 idle w) = trigger w
  /\ telemetry (restarted env1 idle w)
     = TelemetryBuffer.add_all (telemetry w) (late env1 w)
  /\ (exists appended,
        telemetry (snd (CTAGUI.stop_task env2 (run acts (restarted env1 idle w))))
        = TelemetryBuffer.add_all (telemetry w) appended)
  /\ exists t1 lines,
       start_time (restarted env1 idle w) = Some t1
       /\ files (snd (CTAGUI.stop_task env2 (run acts (restarted env1 idle w))))
            !! ("session_" +:+ str_of_int t1 +:+ ".log")
          = Some lines
       /\ lines
          = map Line
              (TelemetryBuffer.snapshot
                 (telemetry (snd (CTAGUI.stop_task env2
                                    (run acts (restarted env1 idle w)))))
                 (dump_time env2 (run acts (restarted env1 idle w))) (10 ^ 9))
       /\ forall e,
            In e (TelemetryBuffer.buf (telemetry w)) ->
            In e (TelemetryBuffer.buf
                    (telemetry (snd (CTAGUI.stop_task env2
                                       (run acts (restarted env1 idle w)))))) ->
            dump_time env2 (run acts (restarted env1 idle w)) - 10 ^ 9 <= fst e ->
            In (Line (TelemetryBuffer.format_line e)) lines.
Proof.
  intros Hstart. unfold restarted.
  destruct (stop_task_spec env1 w t0 Hstart)
    as (_ & Hb1 & Hg1 & Hs1 & Hstop1 & Hth1 & _).
  set (w1 := snd (CTAGUI.stop_task env1 w)) in *.
  destruct (run_stopped idle w1 Hstop1 Hth1) as (Hb2 & Hg2 & Hs2).
  set (w2 := run idle w1) in *.
  set (w3 := snd (CTAGUI.start_task w2)).
  assert (Hb3 : telemetry w3 = telemetry w2) by reflexivity.
  assert (Hg3 : trigger w3 = trigger w2) by reflexivity.
  assert (Hs3 : start_time w3 = Some (clock w2)) by reflexivity.
  refine (conj _ (conj _ _)); [congruence | congruence |].
  destruct (run_appends acts w3) as (Hs4 & l & Hb4).
  set (w4 := run acts w3) in *.
  assert (Hs4' : start_time w4 = Some (clock w2)) by congruence.
  destruct (stop_task_spec env2 w4 (clock w2) Hs4')
    as (_ & Hb5 & _ & _ & _ & _ & _ & Hf5).
  set (w5 := snd (CTAGUI.stop_task env2 w4)) in *.
  split.
  - exists (late env1 w ++ l ++ late env2 w4).
    rewrite Hb5, Hb4, Hb3, Hb2, Hb1, !add_all_app. reflexivity.
  - exists (clock w2),
           (map Line (TelemetryBuffer.snapshot (telemetry w5) (dump_time env2 w4)
                        (10 ^ 9))).
    refine (conj Hs3 (conj _ (conj eq_refl _))).
    + rewrite Hf5. apply lookup_insert_eq.
    + intros e _ Hin Hwin. apply in_map, In_snapshot; assumption.
Qed.

(** A session with two events is stopped while the window poller appends a
    third, a timer runs while stopped, and a new session is started: the
    three events are in the buffer and the engine is the initial one.  The
    new session sees one more key press; the log written at its stop is
    named after its own start and holds the first session's key press. *)
Lemma stop_start_keeps_buffer_and_engine_witness :
  trigger (restarted env_late [Timer env_late] session_world) = TriggerEngine.init
  /\ TelemetryBuffer.buf (telemetry (restarted env_late [Timer env_late] session_world))
     = [(51, "[key] 'a'"); (53, "[file+] /tmp/x"); (54, "[win] editor")]
  /\ exists lines,
       files (snd (CTAGUI.stop_task env_late
                     (run [Produce 5 "[key] 'b'"]
                          (restarted env_late [Timer env_late] session_world))))
         !! "session_55.log" = Some lines
       /\ In (Line "1970-01-01T00:00:51  [key] 'a'") lines.
Proof.
  destruct (stop_start_keeps_buffer_and_engine env_late env_late [Timer env_late]
              [Produce 5 "[key] 'b'"] session_world 50 eq_refl)
    as (H1 & H2 & _ & t1 & lines & Hs & Hf & _ & Hin).
  vm_compute in Hs. injection Hs as <-.
  refine (conj _ (conj _ _)).
  - rewrite H1. reflexivity.
  - rewrite H2. reflexivity.
  - exists lines. split; [exact Hf |].
    apply (Hin (51, "[key] 'a'")).
    + vm_compute. left. reflexivity.
    + vm_compute. left. reflexivity.
    + vm_compute. discriminate.
Defined.

(** ** The tag tests of [evaluate] *)

(** [evaluate] tests the snapshot's lines, and a line starts with the year of
    its timestamp, never with a tag: the reason returned and the engine left
    do not depend on what the buffer holds, and the file-burst reason is
    never returned. *)
Theorem evaluate_ignores_buffer (st : TriggerEngine.t) (b b' : TelemetryBuffer.t)
    (now : Z) :
  TriggerEngine.evaluate st b now = TriggerEngine.evaluate st b' now
  /\ fst (TriggerEngine.evaluate st b now) <> Some TriggerEngine.file_burst_reason.
Proof.
  rewrite !evaluate_by_clock. split; [reflexivity |].
  destruct (_ >? _); cbn [fst]; [| discriminate].
  intros H. apply reasons_differ. congruence.
Qed.

(** * Further properties of the buffer and the engine *)

Lemma last_n_full {A} (l : list A) (n : nat) :
  length (last_n n l) = Nat.min n (length l).
Proof. unfold last_n. rewrite length_skipn. lia. Qed.

(** A buffer within its capacity, after any run of [add] calls, holds as many
    events as it held plus the calls, up to its capacity: it is never above
    [maxlen], and once full it stays full. *)
Theorem add_all_length (b : TelemetryBuffer.t) (calls : list TelemetryBuffer.event) :
  (length (TelemetryBuffer.buf b) <= TelemetryBuffer.maxlen b)%nat ->
  length (TelemetryBuffer.buf (TelemetryBuffer.add_all b calls))
  = Nat.min (TelemetryBuffer.maxlen b) (length (TelemetryBuffer.buf b) + length calls).
Proof.
  intros Hb. rewrite buf_add_all by exact Hb.
  rewrite last_n_full, length_app. reflexivity.
Qed.

Lemma add_all_length_witness :
  length (TelemetryBuffer.buf (TelemetryBuffer.add_all (TelemetryBuffer.init 3) abcd))
  = 3%nat.
Proof.
  rewrite (add_all_length (TelemetryBuffer.init 3) abcd); [reflexivity |].
  cbn. lia.
Defined.

(** The event just added is the last line of every snapshot whose window
    reaches back to its timestamp, unless the capacity is 0. *)
Theorem add_then_snapshot (b : TelemetryBuffer.t) (t : Z) (ev : string) (now w : Z) :
  (0 < TelemetryBuffer.maxlen b)%nat ->
  now - w <= t ->
  exists earlier,
    TelemetryBuffer.snapshot (TelemetryBuffer.add b t ev) now w
    = earlier ++ [TelemetryBuffer.format_line (t, ev)].
Proof.
  intros Hcap Hw. unfold TelemetryBuffer.snapshot, TelemetryBuffer.add.
  cbn [TelemetryBuffer.buf]. unfold TelemetryBuffer.deque_append, last_n.
  rewrite length_app, skipn_app. cbn [length].
  replace (length (TelemetryBuffer.buf b) + 1 - TelemetryBuffer.maxlen b
           - length (TelemetryBuffer.buf b))%nat with 0%nat by lia.
  cbn [skipn]. rewrite List.filter_app, map_app. cbn [List.filter fst].
  destruct (Z.leb_spec (now - w) t) as [_ | H]; [| lia].
  eexists. reflexivity.
Qed.

Lemma add_then_snapshot_witness :
  exists earlier,
    TelemetryBuffer.snapshot
      (TelemetryBuffer.add (TelemetryBuffer.init 500) 100 "[key] 'a'") 103 6
    = earlier ++ ["1970-01-01T00:01:40  [key] 'a'"].
Proof.
  apply (add_then_snapshot (TelemetryBuffer.init 500) 100 "[key] 'a'" 103 6).
  - cbn. lia.
  - lia.
Defined.

Lemma filter_sublist {A} (f g : A -> bool) (l : list A) :
  (forall x, f x = true -> g x = true) ->
  sublist (List.filter f l) (List.filter g l).
Proof.
  intros Hfg. induction l as [| x l IH]; cbn; [constructor |].
  destruct (f x) eqn:Hf.
  - rewrite (Hfg x Hf). now constructor.
  - destruct (g x); [constructor |]; exact IH.
Qed.

Lemma map_sublist {A B} (f : A -> B) (l1 l2 : list A) :
  sublist l1 l2 -> sublist (map f l1) (map f l2).
Proof. induction 1; cbn; now constructor. Qed.

(** A longer window never loses a line: the snapshot of a window is a
    subsequence, in the same order, of the snapshot of any longer window
    taken at the same time. *)
Theorem snapshot_window_monotone (b : TelemetryBuffer.t) (now w w' : Z) :
  w <= w' ->
  sublist (TelemetryBuffer.snapshot b now w) (TelemetryBuffer.snapshot b now w').
Proof.
  intros Hw. unfold TelemetryBuffer.snapshot.
  apply map_sublist, filter_sublist.
  intros e He. apply Z.leb_le in He. apply Z.leb_le. lia.
Qed.

Lemma snapshot_window_monotone_witness :
  sublist (TelemetryBuffer.snapshot three_files 25 6)
          (TelemetryBuffer.snapshot three_files 25 60).
Proof. apply (snapshot_window_monotone three_files 25 6 60). lia. Defined.

Lemma StronglySorted_skipn {A} (R : A -> A -> Prop) (l : list A) :
  StronglySorted R l -> forall k, StronglySorted R (skipn k l).
Proof.
  induction 1 as [| x l Hl IH Hx]; intros [| k]; cbn;
    [constructor | constructor | now constructor | apply IH].
Qed.

Lemma StronglySorted_snoc {A} (R : A -> A -> Prop) (l : list A) (x : A) :
  StronglySorted R l -> Forall (fun y => R y x) l -> StronglySorted R (l ++ [x]).
Proof.
  induction 1 as [| y l Hl IH Hy]; intros Hall; cbn.
  - repeat constructor.
  - apply List.Forall_cons_iff in Hall as [Hyx Hall]. constructor.
    + apply IH, Hall.
    + apply Forall_app. split; [exact Hy | repeat constructor; exact Hyx].
Qed.

(** Over a list sorted for an order along which [f] can only become true,
    the elements [f] keeps are the last ones. *)
Lemma filter_sorted_suffix {A} (R : A -> A -> Prop) (f : A -> bool) (l : list A) :
  (forall a b, R a b -> f a = true -> f b = true) ->
  StronglySorted R l ->
  List.filter f l = last_n (length (List.filter f l)) l.
Proof.
  intros Hmono. induction 1 as [| x l Hl IH Hx]; [reflexivity |].
  cbn [List.filter]. destruct (f x) eqn:Hf.
  - assert (Hall : List.filter f l = l).
    { apply filter_all_true. eapply List.Forall_impl; [| exact Hx].
      intros y Hy. eapply Hmono; eauto. }
    rewrite Hall. symmetry. apply last_n_short. reflexivity.
  - rewrite IH at 1. unfold last_n.
    pose proof (List.filter_length_le f l) as Hle. cbn [length].
    replace (S (length l) - length (List.filter f l))%nat
      with (S (length l - length (List.filter f l)))%nat by lia.
    reflexivity.
Qed.

Lemma buf_sorted N calls :
  nondecreasing calls ->
  nondecreasing (TelemetryBuffer.buf (TelemetryBuffer.add_all (TelemetryBuffer.init N) calls)).
Proof.
  intros H. rewrite buf_add_all_init. unfold last_n. now apply StronglySorted_skipn.
Qed.

(** When the clock never goes back between [add] calls, the buffer is in
    timestamp order and a snapshot is a run of the most recent events: as
    many lines as it has, they are those of the last events of the buffer. *)
Theorem snapshot_is_most_recent (N : nat) (calls : list TelemetryBuffer.event)
    (now w : Z) :
  nondecreasing calls ->
  nondecreasing (TelemetryBuffer.buf (TelemetryBuffer.add_all (TelemetryBuffer.init N) calls))
  /\ TelemetryBuffer.snapshot (TelemetryBuffer.add_all (TelemetryBuffer.init N) calls) now w
     = map TelemetryBuffer.format_line
         (last_n (length (TelemetryBuffer.snapshot
                            (TelemetryBuffer.add_all (TelemetryBuffer.init N) calls) now w))
                 (TelemetryBuffer.buf
                    (TelemetryBuffer.add_all (TelemetryBuffer.init N) calls))).
Proof.
  intros Hs. pose proof (buf_sorted N calls Hs) as Hb. split; [exact Hb |].
  unfold TelemetryBuffer.snapshot at 1 2. rewrite length_map.
  f_equal. apply (filter_sorted_suffix (fun a b => fst a <= fst b)); [| exact Hb].
  intros a c Hac Ha. apply Z.leb_le in Ha. apply Z.leb_le. lia.
Qed.

Lemma snapshot_is_most_recent_witness :
  TelemetryBuffer.snapshot (TelemetryBuffer.add_all (TelemetryBuffer.init 3) abcd) 3 1
  = map TelemetryBuffer.format_line [(2, "C"); (3, "D")].
Proof.
  rewrite (proj2 (snapshot_is_most_recent 3 abcd 3 1
                    ltac:(repeat constructor; cbn; lia))).
  reflexivity.
Defined.

Lemma evaluate_quiet st b now :
  now - TriggerEngine.last_prompt st <= 15 ->
  fst (TriggerEngine.evaluate st b now) = None.
Proof.
  intros H. unfold TriggerEngine.evaluate.
  destruct (Z.gtb_spec (now - TriggerEngine.last_prompt st) 15) as [H15 | _]; [lia |].
  destruct (Z.gtb_spec (now - TriggerEngine.last_prompt st) 30) as [H30 | _]; [lia |].
  rewrite !andb_false_r. reflexivity.
Qed.

(** Within 15 seconds of [last_prompt], [evaluate] returns no reason,
    whatever the buffer and the file-event list hold, and it never changes
    [last_prompt] itself. *)
Theorem evaluate_cooldown (st : TriggerEngine.t) (b : TelemetryBuffer.t) (now : Z) :
  now - TriggerEngine.last_prompt st <= 15 ->
  fst (TriggerEngine.evaluate st b now) = None
  /\ TriggerEngine.last_prompt (snd (TriggerEngine.evaluate st b now))
     = TriggerEngine.last_prompt st.
Proof.
  intros H. split; [apply evaluate_quiet, H | apply evaluate_last_prompt].
Qed.

Lemma evaluate_cooldown_witness :
  fst (TriggerEngine.evaluate (TriggerEngine.mk 90 [50; 80]) three_files 100) = None.
Proof.
  apply (proj1 (evaluate_cooldown (TriggerEngine.mk 90 [50; 80]) three_files 100
                  ltac:(cbn; lia))).
Defined.

(** * Further properties of the interaction cycle *)

(** An accepted answer that is recorded, transcribed and logged:
    [ask_cta_question] returns; the recording is gone; [cta_log.jsonl] has
    gained exactly one record, holding the question, the transcription and
    the last 20 context lines; no other file has changed. *)
Theorem answered_question_is_logged (env : Env) (question : string)
    (ctx : list string) (w : World) (text : string) :
  (forall m, askyesno env m = true) ->
  capture env = Return tt ->
  transcription env = Return text ->
  open_log env = Return tt ->
  fst (CTAGUI.ask_cta_question env question ctx w) = Return tt
  /\ files (snd (CTAGUI.ask_cta_question env question ctx w))
     = <["cta_log.jsonl" :=
           default [] (files w !! "cta_log.jsonl")
           ++ [Json (mk_qa (Datetime.isoformat
                              (Datetime.fromtimestamp
                                 (clock w + took env AskYesNo + took env ShowInfo + 12
                                  + took env ShowInfo + took env Transcription)))
                           question (Some text) (last_n 20 ctx))]]>
         (delete (answer_file env w) (files w)).
Proof.
  intros Hyes Hcap Htr Hlog.
  pose proof (answer_file_not_log env w) as Hne. unfold answer_file in *.
  set (wav := "ans_" +:+ str_of_int (clock w + took env AskYesNo) +:+ ".wav") in *.
  change (wp (CTAGUI.ask_cta_question env question ctx)
            (fun o w' =>
               o = Return tt
               /\ files w'
                  = <["cta_log.jsonl" :=
                        default [] (files w !! "cta_log.jsonl")
                        ++ [Json (mk_qa (Datetime.isoformat
                                           (Datetime.fromtimestamp
                                              (clock w + took env AskYesNo
                                               + took env ShowInfo + 12
                                               + took env ShowInfo
                                               + took env Transcription)))
                                        question (Some text) (last_n 20 ctx))]]>
                      (delete wav (files w))) w).
  unfold CTAGUI.ask_cta_question, record_audio, transcribe_audio.
  wp_steps. rewrite Hyes. wp_steps. rewrite Hcap. wp_steps. rewrite Htr. wp_steps.
  rewrite Hlog. wp_steps. split; [reflexivity |].
  rewrite delete_insert_eq.
  rewrite lookup_delete_ne by exact Hne. reflexivity.
Qed.

Lemma answered_question_is_logged_witness :
  files (snd (CTAGUI.ask_cta_question
                (env_of (Return "Why that file?") true (Return tt)
                        (Return "It was the newest.") (Return tt))
                "Why that file?" ["line 1"] (CTAGUI.new 100 ∅)))
  = {["cta_log.jsonl" :=
        [Json (mk_qa "1970-01-01T00:01:56" "Why that file?"
                     (Some "It was the newest.") ["line 1"])]]}.
Proof.
  rewrite (proj2 (answered_question_is_logged
                    (env_of (Return "Why that file?") true (Return tt)
                            (Return "It was the newest.") (Return tt))
                    "Why that file?" ["line 1"] (CTAGUI.new 100 ∅)
                    "It was the newest." (fun _ => eq_refl) eq_refl eq_refl eq_refl)).
  vm_compute. reflexivity.
Defined.

(** [ask_cta_question] raises nothing of its own: an exception that comes
    out of it was raised by the capture, by the transcription or by the
    opening of the log. The recording it reads and removes is always
    there. *)
Theorem ask_cta_question_raises_only_collaborators (env : Env) (question : string)
    (ctx : list string) (w : World) (e : exn) :
  fst (CTAGUI.ask_cta_question env question ctx w) = Raise e ->
  capture env = Raise e \/ transcription env = Raise e \/ open_log env = Raise e.
Proof.
  change (wp (CTAGUI.ask_cta_question env question ctx)
            (fun o _ =>
               o = Raise e ->
               capture env = Raise e \/ transcription env = Raise e
               \/ open_log env = Raise e) w).
  unfold CTAGUI.ask_cta_question, record_audio, transcribe_audio.
  wp_steps. destruct (askyesno env _); wp_steps.
  - destruct (capture env) as [[] | e1] eqn:Hcap; wp_steps.
    + destruct (transcription env) as [text | e2] eqn:Htr; wp_steps.
      * destruct (open_log env) as [[] | e3] eqn:Hlog; wp_steps.
        -- discriminate.
        -- intros [= ->]. auto.
      * intros [= ->]. auto.
    + intros [= ->]. auto.
  - destruct (open_log env) as [[] | e3] eqn:Hlog; wp_steps.
    + discriminate.
    + intros [= ->]. auto.
Qed.

Lemma ask_cta_question_raises_only_collaborators_witness :
  capture (env_of (Return "q") true (Raise CaptureError) (Return "unused") (Return tt))
    = Raise CaptureError
  \/ transcription
       (env_of (Return "q") true (Raise CaptureError) (Return "unused") (Return tt))
     = Raise CaptureError
  \/ open_log (env_of (Return "q") true (Raise CaptureError) (Return "unused") (Return tt))
     = Raise CaptureError.
Proof.
  apply (ask_cta_question_raises_only_collaborators
           (env_of (Return "q") true (Raise CaptureError) (Return "unused") (Return tt))
           "q" [] (CTAGUI.new 100 ∅) CaptureError).
  reflexivity.
Defined.

(** [monitor_loop] never touches the buffer, the stop signal, the list of
    running threads or the session's start time, whether it returns or
    raises. *)
Theorem monitor_loop_frame (env : Env) (w : World) :
  telemetry (snd (CTAGUI.monitor_loop env w)) = telemetry w
  /\ stop_event (snd (CTAGUI.monitor_loop env w)) = stop_event w
  /\ running_threads (snd (CTAGUI.monitor_loop env w)) = running_threads w
  /\ start_time (snd (CTAGUI.monitor_loop env w)) = start_time w.
Proof.
  repeat split.
  - apply (monitor_loop_keeps telemetry); [apply cycle_keeps_telemetry | reflexivity].
  - apply (monitor_loop_keeps stop_event); [apply cycle_keeps_stop_event | reflexivity].
  - apply (monitor_loop_keeps running_threads);
      [apply cycle_keeps_running_threads | reflexivity].
  - apply (monitor_loop_keeps start_time); [apply cycle_keeps_start_time | reflexivity].
Qed.

(** After a cycle that [monitor_loop] carried to its end, [last_prompt] is
    the clock reading at that end, so no evaluation in the following
    15 seconds returns a reason: a trigger does not fire again right after it
    was handled. *)
Theorem no_trigger_right_after_cycle (env : Env) (w : World) (h : string) :
  stop_event w = false ->
  fst (TriggerEngine.evaluate (trigger w) (telemetry w) (clock w)) = Some h ->
  fst (CTAGUI.monitor_loop env w) = Return tt ->
  TriggerEngine.last_prompt (trigger (snd (CTAGUI.monitor_loop env w)))
  = clock (snd (CTAGUI.monitor_loop env w))
  /\ forall b now,
       now - clock (snd (CTAGUI.monitor_loop env w)) <= 15 ->
       fst (TriggerEngine.evaluate (trigger (snd (CTAGUI.monitor_loop env w))) b now)
       = None.
Proof.
  intros Hstop Hhint.
  pose proof (evaluate_hint_truthy _ _ _ _ Hhint) as Htruthy.
  cut (wp (CTAGUI.monitor_loop env)
          (fun o w' =>
             o = Return tt -> TriggerEngine.last_prompt (trigger w') = clock w') w).
  { unfold wp. intros H Hret. specialize (H Hret). split; [exact H |].
    intros b now Hnow. apply evaluate_quiet. rewrite H. exact Hnow. }
  unfold CTAGUI.monitor_loop. wp_steps. rewrite Hstop. cbn [negb]. wp_steps.
  rewrite Hhint, Htruthy. wp_steps.
  unfold llm_generate_question, CTAGUI.ask_cta_question, record_audio,
    transcribe_audio.
  wp_steps. destruct (chat_completion env _ _); wp_steps; [| discriminate].
  destruct (askyesno env _); wp_steps.
  - destruct (capture env) as [[] |]; wp_steps; [| discriminate].
    destruct (transcription env); wp_steps; [| discriminate].
    destruct (open_log env) as [[] |]; wp_steps; [reflexivity | discriminate].
  - destruct (open_log env) as [[] |]; wp_steps; [reflexivity | discriminate].
Qed.

Lemma no_trigger_right_after_cycle_witness :
  TriggerEngine.last_prompt
    (trigger (snd (CTAGUI.monitor_loop
                     (env_of (Return " Why? ") false (Return tt) (Return "unused")
                             (Return tt))
                     (CTAGUI.new 100 ∅)))) = 102.
Proof.
  rewrite (proj1 (no_trigger_right_after_cycle
                    (env_of (Return " Why? ") false (Return tt) (Return "unused")
                            (Return tt))
                    (CTAGUI.new 100 ∅) TriggerEngine.idle_pause_reason
                    eq_refl eq_refl eq_refl)).
  reflexivity.
Defined.

(** The loop keeps one tick pending: when the event loop runs the only
    pending timer and the callback returns, exactly one timer is pending
    again, due one second after the callback's end. *)
Theorem one_timer_pending (env : Env) (w : World) (due : Z) :
  timers w = [due] ->
  fst (CTAGUI.monitor_loop env (set_timers [] (set_clock (Z.max (clock w) due) w)))
  = Return tt ->
  timers (CTAGUI.mainloop_timer env w) = [clock (CTAGUI.mainloop_timer env w) + 1].
Proof.
  intros Ht. unfold CTAGUI.mainloop_timer. rewrite Ht.
  set (w0 := set_timers [] (set_clock (Z.max (clock w) due) w)).
  change (wp (CTAGUI.monitor_loop env)
            (fun o w' => o = Return tt -> timers w' = [clock w' + 1]) w0).
  apply monitor_loop_after_cycle.
  - intros w' _ _. reflexivity.
  - intros e w' _ H. discriminate H.
Qed.

Lemma one_timer_pending_witness :
  timers (CTAGUI.mainloop_timer
            (env_of (Return "Why?") false (Return tt) (Return "unused") (Return tt))
            (set_timers [101] (CTAGUI.new 100 ∅)))
  = [104].
Proof.
  rewrite (one_timer_pending
             (env_of (Return "Why?") false (Return tt) (Return "unused") (Return tt))
             (set_timers [101] (CTAGUI.new 100 ∅)) 101 eq_refl eq_refl).
  reflexivity.
Defined.

Lemma evaluate_fresh_engine clock0 :
  15 < clock0 ->
  fst (TriggerEngine.evaluate TriggerEngine.init (TelemetryBuffer.init 500) clock0)
  = Some TriggerEngine.idle_pause_reason.
Proof.
  intros H. unfold TriggerEngine.evaluate. cbn.
  destruct (Z.gtb_spec (clock0 - 0) 15); [reflexivity | lia].
Qed.

(** Building the GUI already runs a cycle: [__init__] calls [monitor_loop]
    with the stop signal clear and [last_prompt = 0], so at any clock reading
    above 15 the idle-pause rule fires before a task was ever started.  If
    the question generation fails, the constructor raises and no tick is
    scheduled; if it succeeds and the user declines to record, a record with
    the stripped question, no answer and an empty context is logged, and
    [last_prompt] becomes the clock reading at the end of the cycle. *)
Theorem gui_prompts_at_construction (env : Env) (clock0 : Z)
    (files0 : gmap string (list entry)) :
  15 < clock0 ->
  (forall e,
     (forall s m, chat_completion env s m = Raise e) ->
     fst (CTAGUI.init env clock0 files0) = Raise e
     /\ timers (snd (CTAGUI.init env clock0 files0)) = [])
  /\ (forall q,
        (forall s m, chat_completion env s m = Return q) ->
        (forall m, askyesno env m = false) ->
        open_log env = Return tt ->
        fst (CTAGUI.init env clock0 files0) = Return tt
        /\ files (snd (CTAGUI.init env clock0 files0))
           = <["cta_log.jsonl" :=
                 default [] (files0 !! "cta_log.jsonl")
                 ++ [Json (mk_qa (Datetime.isoformat
                                    (Datetime.fromtimestamp
                                       (clock0 + took env ChatCompletion
                                        + took env AskYesNo)))
                                 (strip q) None [])]]> files0
        /\ TriggerEngine.last_prompt (trigger (snd (CTAGUI.init env clock0 files0)))
           = clock0 + took env ChatCompletion + took env AskYesNo).
Proof.
  intros Hclock.
  pose proof (evaluate_fresh_engine clock0 Hclock) as Hhint.
  pose proof (evaluate_hint_truthy _ _ _ _ Hhint) as Htruthy.
  unfold CTAGUI.init. split.
  - intros e Hq.
    change (wp (CTAGUI.monitor_loop env)
              (fun o w' => o = Raise e /\ timers w' = []) (CTAGUI.new clock0 files0)).
    unfold CTAGUI.monitor_loop. wp_steps.
    unfold CTAGUI.new. world_simpl. cbn [negb]. wp_steps.
    rewrite Hhint, Htruthy. wp_steps.
    unfold llm_generate_question. wp_steps. rewrite Hq. wp_steps.
    split; reflexivity.
  - intros q Hq Hno Hlog.
    change (wp (CTAGUI.monitor_loop env)
              (fun o w' =>
                 o = Return tt
                 /\ files w'
                    = <["cta_log.jsonl" :=
                          default [] (files0 !! "cta_log.jsonl")
                          ++ [Json (mk_qa (Datetime.isoformat
                                             (Datetime.fromtimestamp
                                                (clock0 + took env ChatCompletion
                                                 + took env AskYesNo)))
                                          (strip q) None [])]]> files0
                 /\ TriggerEngine.last_prompt (trigger w')
                    = clock0 + took env ChatCompletion + took env AskYesNo)
              (CTAGUI.new clock0 files0)).
    unfold CTAGUI.monitor_loop. wp_steps.
    unfold CTAGUI.new. world_simpl. cbn [negb]. wp_steps.
    rewrite Hhint, Htruthy. wp_steps.
    unfold llm_generate_question, CTAGUI.ask_cta_question. wp_steps.
    rewrite Hq. wp_steps. rewrite Hno. wp_steps. rewrite Hlog. wp_steps.
    repeat split; reflexivity.
Qed.

(** On 2025-11-03 at 11:00:00: a failing model makes the constructor raise;
    a reply with no-break spaces and line feeds around the question, declined
    by the user, is logged without them. *)
Lemma gui_prompts_at_construction_witness :
  fst (CTAGUI.init
         (env_of (Raise ModelError) false (Return tt) (Return "unused") (Return tt))
         1762167600 ∅)
  = Raise ModelError
  /\ files (snd (CTAGUI.init
                   (env_of (Return padded_reply) false (Return tt) (Return "unused")
                           (Return tt))
                   1762167600 ∅)) !! "cta_log.jsonl"
     = Some [Json (mk_qa "2025-11-03T11:00:02" "Why that file?" None [])].
Proof.
  split.
  - apply (proj1 (gui_prompts_at_construction
                    (env_of (Raise ModelError) false (Return tt) (Return "unused")
                            (Return tt))
                    1762167600 ∅ ltac:(lia))
             ModelError (fun _ _ => eq_refl)).
  - destruct (proj2 (gui_prompts_at_construction
                       (env_of (Return padded_reply) false (Return tt)
                               (Return "unused") (Return tt))
                       1762167600 ∅ ltac:(lia))
                padded_reply (fun _ _ => eq_refl) (fun _ => eq_refl) eq_refl)
      as (_ & Hf & _).
    rewrite Hf, lookup_insert_eq, lookup_empty. vm_compute. reflexivity.
Defined.

(** * Further properties of start and stop *)

(** [stop_task] before any [start_task] raises when it reaches the session
    log, whose name needs the start time: by then the stop signal is set and
    the thread list is empty, and no file has been written. *)
Theorem stop_task_before_start (env : Env) (w : World) :
  start_time w = None ->
  fst (CTAGUI.stop_task env w) = Raise AttributeError
  /\ stop_event (snd (CTAGUI.stop_task env w)) = true
  /\ running_threads (snd (CTAGUI.stop_task env w)) = []
  /\ files (snd (CTAGUI.stop_task env w)) = files w.
Proof.
  intros Hstart.
  change (wp (CTAGUI.stop_task env)
            (fun o w' =>
               o = Raise AttributeError /\ stop_event w' = true
               /\ running_threads w' = [] /\ files w' = files w) w).
  unfold CTAGUI.stop_task, CTAGUI.join_threads, CTAGUI.dump_log.
  wp_steps. destruct (running_threads w) as [| th ths]; wp_steps.
  - rewrite Hstart. wp_steps. repeat split.
  - apply wp_drain. wp_steps. rewrite Hstart. wp_steps. repeat split.
Qed.

Lemma stop_task_before_start_witness :
  fst (CTAGUI.stop_task env_late (CTAGUI.new 100 ∅)) = Raise AttributeError.
Proof. apply (stop_task_before_start env_late (CTAGUI.new 100 ∅) eq_refl). Defined.

(** The session log that [stop_task] writes never has more lines than the
    buffer's capacity: what the buffer evicted during the session is not in
    the log. *)
Theorem session_log_within_capacity (env : Env) (w : World) (t0 : Z) :
  start_time w = Some t0 ->
  (length (TelemetryBuffer.buf (telemetry w)) <= TelemetryBuffer.maxlen (telemetry w))%nat ->
  exists lines,
    files (snd (CTAGUI.stop_task env w)) !! ("session_" +:+ str_of_int t0 +:+ ".log")
    = Some (map Line lines)
    /\ (length lines <= TelemetryBuffer.maxlen (telemetry w))%nat.
Proof.
  intros Hstart Hcap.
  destruct (stop_task_spec env w t0 Hstart) as (_ & Hb & _ & _ & _ & _ & _ & Hf).
  eexists. split.
  - rewrite Hf. apply lookup_insert_eq.
  - etransitivity; [apply snapshot_length |].
    rewrite Hb, buf_add_all by exact Hcap. apply last_n_length.
Qed.

Lemma session_log_within_capacity_witness :
  exists lines,
    files (snd (CTAGUI.stop_task env_late session_world)) !! "session_50.log"
    = Some (map Line lines)
    /\ (length lines <= 500)%nat.
Proof.
  apply (session_log_within_capacity env_late session_world 50 eq_refl).
  vm_compute. lia.
Defined.

(** * Properties of the producers *)



(** What one callback does: it returns; it appends at most one event, a
    tagged one, exactly when [appends] says so; the stop signal stays. *)
Lemma tagged_win x : tagged ("[win] " +:+ x) = true.
Proof. destruct x; reflexivity. Qed.

Lemma tagged_key x : tagged ("[key] " +:+ x) = true.
Proof. destruct x; reflexivity. Qed.

Lemma tagged_mouse x : tagged ("[mouse] " +:+ x) = true.
Proof. destruct x; reflexivity. Qed.

Lemma tagged_file_created x : tagged ("[file+] " +:+ x) = true.
Proof. destruct x; reflexivity. Qed.

Lemma tagged_file_modified x : tagged ("[file~] " +:+ x) = true.
Proof. destruct x; reflexivity. Qed.

Ltac one_tagged :=
  split; [reflexivity | split; [reflexivity |]];
  apply List.Forall_cons;
  [ first [ apply tagged_win | apply tagged_key | apply tagged_mouse
          | apply tagged_file_created | apply tagged_file_modified ]
  | apply List.Forall_nil ].

Lemma deliver_spec c w :
  wp (deliver c)
     (fun o w' =>
        o = Return tt
        /\ stop_event w' = stop_event w
        /\ exists evs,
             telemetry w' = TelemetryBuffer.add_all (telemetry w) evs
             /\ length evs = (if appends (stop_event w) c then 1 else 0)%nat
             /\ Forall (fun e => tagged (snd e) = true) evs) w.
Proof.
  destruct c as [system p | key | x y button pressed | path | path];
    cbn [deliver appends];
    unfold Producers.poll_active_window_turn, Producers.poll_active_window_body,
      Producers.on_press, Producers.on_click, Producers.on_created,
      Producers.on_modified, Sys.telemetry_add.
  - wp_steps. destruct (stop_event w) eqn:Hstop; cbn [negb]; wp_steps.
    + repeat split; [exact Hstop |]. exists []. repeat split. constructor.
    + destruct p as [raw | msg]; wp_steps.
      * repeat split; [exact Hstop |]. eexists [(_, _)]. one_tagged.
      * repeat split; [exact Hstop |]. eexists [(_, _)]. one_tagged.
  - wp_steps. repeat split. eexists [(_, _)]. one_tagged.
  - destruct pressed; wp_steps.
    + repeat split. eexists [(_, _)]. one_tagged.
    + repeat split. exists []. repeat split. constructor.
  - wp_steps. repeat split. eexists [(_, _)]. one_tagged.
  - wp_steps. repeat split. eexists [(_, _)]. one_tagged.
Qed.

Lemma deliver_all_spec cs : forall w,
  wp (deliver_all cs)
     (fun o w' =>
        o = Return tt
        /\ stop_event w' = stop_event w
        /\ exists evs,
             telemetry w' = TelemetryBuffer.add_all (telemetry w) evs
             /\ length evs = length (List.filter (appends (stop_event w)) cs)
             /\ Forall (fun e => tagged (snd e) = true) evs) w.
Proof.
  induction cs as [| c cs IH]; intros w; cbn [deliver_all].
  - wp_steps. repeat split. exists []. repeat split. constructor.
  - apply wp_bind. pose proof (deliver_spec c w) as Hc. unfold wp in Hc |- *.
    destruct (deliver c w) as [[[] | e] w1]; cbn [fst snd] in *;
      destruct Hc as (Ho & Hstop & evs & Ht & Hlen & Htag); [| discriminate Ho].
    pose proof (IH w1) as Hcs. unfold wp in Hcs |- *.
    destruct Hcs as (Ho' & Hstop' & evs' & Ht' & Hlen' & Htag').
    split; [exact Ho' |]. split; [congruence |].
    exists (evs ++ evs'). repeat split.
    + rewrite Ht', Ht. apply add_all_app.
    + rewrite length_app, Hlen, Hlen', Hstop. cbn [List.filter].
      destruct (appends (stop_event w) c); cbn [length]; lia.
    + apply Forall_app. split; assumption.
Qed.




(** In a buffer within its capacity, the callbacks add one event each, except
    the mouse releases and the poller's turns after the stop signal, which
    add none: the buffer grows by their number, up to its capacity. *)
Theorem producers_event_count (cs : list callback) (w : World) :
  (length (TelemetryBuffer.buf (telemetry w)) <= TelemetryBuffer.maxlen (telemetry w))%nat ->
  length (TelemetryBuffer.buf (telemetry (snd (deliver_all cs w))))
  = Nat.min (TelemetryBuffer.maxlen (telemetry w))
            (length (TelemetryBuffer.buf (telemetry w))
             + length (List.filter (appends (stop_event w)) cs)).
Proof.
  intros Hcap. destruct (deliver_all_spec cs w) as (_ & _ & evs & Ht & Hlen & _).
  rewrite Ht, buf_add_all by exact Hcap.
  rewrite last_n_full, length_app, Hlen. reflexivity.
Qed.

Lemma producers_event_count_witness :
  length (TelemetryBuffer.buf
            (telemetry
               (snd (deliver_all
                       [KeyPress "'a'"; MouseClick 10 20 "Button.left" true;
                        MouseClick 10 20 "Button.left" false; FileCreated "/tmp/x"]
                       (CTAGUI.new 100 ∅)))))
  = 3%nat.
Proof.
  rewrite (producers_event_count
             [KeyPress "'a'"; MouseClick 10 20 "Button.left" true;
              MouseClick 10 20 "Button.left" false; FileCreated "/tmp/x"]
             (CTAGUI.new 100 ∅)); [reflexivity |].
  cbn. lia.
Defined.

(** * The question that comes back from the model *)

Lemma append_cons (x : ascii) (a b : string) :
  String x a +:+ b = String x (a +:+ b).
Proof. reflexivity. Qed.

Lemma append_empty_l (b : string) : "" +:+ b = b.
Proof. reflexivity. Qed.

Lemma append_assoc (a b c : string) : (a +:+ b) +:+ c = a +:+ (b +:+ c).
Proof.
  induction a as [| x a IH]; [reflexivity |].
  rewrite !append_cons. f_equal. exact IH.
Qed.

Lemma append_empty_r (a : string) : a +:+ "" = a.
Proof.
  induction a as [| x a IH]; [reflexivity |].
  rewrite append_cons. f_equal. exact IH.
Qed.

Lemma rev_app_append (s1 : string) : forall s2,
  String.rev_app s1 s2 = String.rev s1 +:+ s2.
Proof.
  unfold String.rev.
  induction s1 as [| a s1 IH]; intros s2; cbn [String.rev_app]; [reflexivity |].
  rewrite IH, (IH (String a "")), append_assoc. reflexivity.
Qed.

Lemma rev_cons (a : ascii) (s : string) :
  String.rev (String a s) = String.rev s +:+ String a "".
Proof. unfold String.rev at 1. cbn [String.rev_app]. apply rev_app_append. Qed.

Lemma rev_append (a b : string) :
  String.rev (a +:+ b) = String.rev b +:+ String.rev a.
Proof.
  induction a as [| x a IH].
  - rewrite append_empty_l. change (String.rev "") with "".
    now rewrite append_empty_r.
  - rewrite append_cons, !rev_cons, IH, append_assoc. reflexivity.
Qed.

Lemma rev_involutive (s : string) : String.rev (String.rev s) = s.
Proof.
  induction s as [| a s IH]; [reflexivity |].
  rewrite rev_cons, rev_append, IH. reflexivity.
Qed.

Lemma length_append (a b : string) :
  String.length (a +:+ b) = (String.length a + String.length b)%nat.
Proof.
  induction a as [| x a IH]; [reflexivity |].
  rewrite append_cons. cbn [String.length]. now rewrite IH.
Qed.

Lemma prefix_append (a b : string) : String.prefix a (a +:+ b) = true.
Proof.
  induction a as [| x a IH]; [destruct b; reflexivity |].
  rewrite append_cons. cbn [String.prefix].
  destruct (ascii_dec x x); [exact IH | congruence].
Qed.

Lemma prefix_trans a : forall b c,
  String.prefix a b = true -> String.prefix b c = true -> String.prefix a c = true.
Proof.
  induction a as [| x a IH]; intros b c Hab Hbc.
  - destruct c; reflexivity.
  - destruct b as [| y b]; cbn [String.prefix] in Hab; [discriminate |].
    destruct (ascii_dec x y) as [<- | _]; [| discriminate].
    destruct c as [| z c]; cbn [String.prefix] in Hbc |- *; [discriminate |].
    destruct (ascii_dec x z); [| discriminate]. eapply IH; eauto.
Qed.

Lemma removeprefix_Some p : forall s rest,
  removeprefix p s = Some rest -> s = p +:+ rest.
Proof.
  induction p as [| a p IH]; intros s rest H.
  - destruct s; cbn [removeprefix] in H; now injection H as <-.
  - destruct s as [| b s]; cbn [removeprefix] in H; [discriminate |].
    destruct (ascii_dec a b) as [<- | _]; [| discriminate].
    rewrite append_cons. f_equal. apply IH, H.
Qed.

Lemma removeprefix_None p : forall s,
  removeprefix p s = None -> String.prefix p s = false.
Proof.
  induction p as [| a p IH]; intros s H.
  - destruct s; discriminate.
  - destruct s as [| b s]; cbn [removeprefix] in H; cbn [String.prefix];
      [reflexivity |].
    destruct (ascii_dec a b); [apply IH, H | reflexivity].
Qed.

Lemma drop_one_Some chars s rest :
  drop_one chars s = Some rest -> exists c, In c chars /\ s = c +:+ rest.
Proof.
  induction chars as [| c chars IH]; cbn [drop_one]; [discriminate |].
  destruct (removeprefix c s) as [r |] eqn:E.
  - intros [= <-]. exists c. split; [now left | apply removeprefix_Some, E].
  - intros H. destruct (IH H) as (c' & Hin & Hs). exists c'. split; [now right | exact Hs].
Qed.

Lemma drop_one_None chars s :
  drop_one chars s = None -> forall c, In c chars -> String.prefix c s = false.
Proof.
  induction chars as [| c chars IH]; cbn [drop_one]; intros H c' Hin; [destruct Hin |].
  destruct (removeprefix c s) as [r |] eqn:E; [discriminate |].
  destruct Hin as [<- | Hin]; [apply removeprefix_None, E | apply IH; assumption].
Qed.

(** What [lstrip_chars] removes is made of characters of [chars]. *)
Lemma lstrip_chars_split chars : forall fuel s,
  exists front, s = front +:+ lstrip_chars fuel chars s /\ made_of chars front.
Proof.
  induction fuel as [| fuel IH]; intros s; cbn [lstrip_chars].
  - exists "". split; [reflexivity | constructor].
  - destruct (drop_one chars s) as [rest |] eqn:E.
    + destruct (drop_one_Some _ _ _ E) as (c & Hin & ->).
      destruct (IH rest) as (front & Hrest & Hfront).
      exists (c +:+ front). split.
      * rewrite append_assoc. f_equal. exact Hrest.
      * constructor; assumption.
    + exists "". split; [reflexivity | constructor].
Qed.

(** With the length of the string as fuel, [lstrip_chars] stops only where
    no character of [chars] is in front. *)
Lemma lstrip_chars_edge chars :
  (forall c, In c chars -> c <> "") ->
  forall fuel s, (String.length s <= fuel)%nat ->
  forall c, In c chars -> String.prefix c (lstrip_chars fuel chars s) = false.
Proof.
  intros Hne. induction fuel as [| fuel IH]; intros s Hlen c Hin; cbn [lstrip_chars].
  - destruct s; [| cbn [String.length] in Hlen; lia].
    destruct c; [now destruct (Hne "" Hin) | reflexivity].
  - destruct (drop_one chars s) as [rest |] eqn:E.
    + apply IH; [| exact Hin].
      destruct (drop_one_Some _ _ _ E) as (c' & Hin' & ->).
      rewrite length_append in Hlen.
      destruct c' as [| x c']; [now destruct (Hne "" Hin') |].
      cbn [String.length] in Hlen. lia.
    + apply (drop_one_None _ _ E), Hin.
Qed.

Lemma made_of_app chars a b :
  made_of chars a -> made_of chars b -> made_of chars (a +:+ b).
Proof.
  induction 1 as [| c s Hin Hs IH]; intros Hb; [exact Hb |].
  rewrite append_assoc. constructor; [exact Hin | apply IH, Hb].
Qed.

Lemma made_of_rev chars s :
  made_of (map String.rev chars) s -> made_of chars (String.rev s).
Proof.
  induction 1 as [| c s Hin Hs IH]; [constructor |].
  rewrite rev_append. apply made_of_app; [exact IH |].
  apply in_map_iff in Hin. destruct Hin as (c' & <- & Hin).
  rewrite rev_involutive, <- (append_empty_r c'). constructor; [exact Hin | constructor].
Qed.

Lemma whitespace_nonempty c : In c whitespace -> c <> "".
Proof.
  intros Hin ->. vm_compute in Hin.
  repeat (destruct Hin as [Hin | Hin]; [discriminate |]). exact Hin.
Qed.

Lemma whitespace_rev_nonempty c : In c (map String.rev whitespace) -> c <> "".
Proof.
  intros Hin ->. vm_compute in Hin.
  repeat (destruct Hin as [Hin | Hin]; [discriminate |]). exact Hin.
Qed.

(** [strip] removes white space and nothing else, and leaves none at either
    end. *)
Lemma strip_spec s :
  exists front back,
    s = front +:+ strip s +:+ back
    /\ made_of whitespace front /\ made_of whitespace back
    /\ (forall c, In c whitespace -> startswith (strip s) c = false)
    /\ (forall c, In c whitespace -> endswith (strip s) c = false).
Proof.
  unfold strip, rstrip, lstrip, startswith, endswith.
  destruct (lstrip_chars_split whitespace (String.length s) s) as (front & Hs & Hfront).
  set (u := lstrip_chars (String.length s) whitespace s) in *.
  destruct (lstrip_chars_split (map String.rev whitespace)
              (String.length (String.rev u)) (String.rev u)) as (kcab & Hu & Hkcab).
  set (v := lstrip_chars (String.length (String.rev u)) (map String.rev whitespace)
              (String.rev u)) in *.
  assert (Hu' : u = String.rev v +:+ String.rev kcab).
  { rewrite <- rev_append, <- Hu. symmetry. apply rev_involutive. }
  exists front, (String.rev kcab).
  refine (conj _ (conj Hfront (conj (made_of_rev _ _ Hkcab) (conj _ _)))).
  - rewrite <- Hu'. exact Hs.
  - intros c Hin.
    destruct (String.prefix c (String.rev v)) eqn:E; [| reflexivity].
    rewrite <- (lstrip_chars_edge whitespace whitespace_nonempty
                  (String.length s) s (le_n _) c Hin).
    fold u. rewrite Hu'. symmetry.
    apply (prefix_trans c (String.rev v)); [exact E | apply prefix_append].
  - intros c Hin. rewrite rev_involutive.
    apply (lstrip_chars_edge _ whitespace_rev_nonempty _ _ (le_n _)).
    apply in_map, Hin.
Qed.

(** The question [llm_generate_question] returns is the model's reply to the
    two messages, without the white space around it: the reply is the
    question between two runs of white-space characters, and the question
    neither starts nor ends with one. *)
Theorem question_is_stripped (env : Env) (hint : string) (ctx : list string)
    (w : World) (q : string) :
  fst (llm_generate_question env hint ctx w) = Return q ->
  exists reply front back,
    chat_completion env system_message (user_message hint ctx) = Return reply
    /\ reply = front +:+ q +:+ back
    /\ made_of whitespace front /\ made_of whitespace back
    /\ (forall c, In c whitespace -> startswith q c = false)
    /\ (forall c, In c whitespace -> endswith q c = false).
Proof.
  change (wp (llm_generate_question env hint ctx)
            (fun o _ =>
               o = Return q ->
               exists reply front back,
                 chat_completion env system_message (user_message hint ctx)
                 = Return reply
                 /\ reply = front +:+ q +:+ back
                 /\ made_of whitespace front /\ made_of whitespace back
                 /\ (forall c, In c whitespace -> startswith q c = false)
                 /\ (forall c, In c whitespace -> endswith q c = false)) w).
  unfold llm_generate_question. wp_steps.
  change (chat_completion env _ _)
    with (chat_completion env system_message (user_message hint ctx)).
  destruct (chat_completion env system_message (user_message hint ctx))
    as [content | e]; wp_steps; [| discriminate].
  intros [= <-]. exists content.
  destruct (strip_spec content) as (front & back & H).
  exists front, back. split; [reflexivity | exact H].
Qed.

Lemma question_is_stripped_witness :
  exists reply front back,
    Return padded_reply = Return reply
    /\ reply = front +:+ "Why that file?" +:+ back
    /\ made_of whitespace front /\ made_of whitespace back
    /\ (forall c, In c whitespace -> startswith "Why that file?" c = false)
    /\ (forall c, In c whitespace -> endswith "Why that file?" c = false).
Proof.
  apply (question_is_stripped
           (env_of (Return padded_reply) false (Return tt)
                   (Return "unused") (Return tt))
           TriggerEngine.idle_pause_reason [] (CTAGUI.new 100 ∅) "Why that file?").
  reflexivity.
Defined.

(** * The presence debounce of the webcam detectors *)

Section Debounce.
Context {F : Type} (detect : F -> bool) (pt at_ : nat).

Lemma loop_state inputs : forall st,
  snd (fst (Webcam.loop detect pt at_ st inputs))
  = after_frames detect pt at_ st (processed inputs).
Proof.
  induction inputs as [| [| frame t key] rest IH]; intros st; cbn [Webcam.loop processed];
    [reflexivity | reflexivity |].
  destruct (Webcam.step detect pt at_ st frame) as [st' changed] eqn:Hstep.
  destruct (Z.land key 255 =? 113).
  - cbn. rewrite Hstep. reflexivity.
  - specialize (IH st').
    destruct (Webcam.loop detect pt at_ st' rest) as [[printed' st''] exited].
    cbn [fst snd] in *. cbn [after_frames fold_left]. rewrite Hstep. exact IH.
Qed.

Lemma streak_snoc {A} (p : A -> bool) (l : list A) (x : A) :
  streak p (l ++ [x]) = if p x then S (streak p l) else 0%nat.
Proof. unfold streak. rewrite rev_app_distr. reflexivity. Qed.

Lemma after_frames_snoc st frames f :
  after_frames detect pt at_ st (frames ++ [f])
  = fst (Webcam.step detect pt at_ (after_frames detect pt at_ st frames) f).
Proof. unfold after_frames. rewrite fold_left_app. reflexivity. Qed.

(** The counters are the lengths of the current runs, and a run as long as
    its threshold decides the state. *)
Lemma debounce_invariant :
  (0 < pt)%nat -> (0 < at_)%nat ->
  forall frames,
    Webcam.presence_counter (after_frames detect pt at_ Webcam.initial frames)
    = streak detect frames
    /\ Webcam.absence_counter (after_frames detect pt at_ Webcam.initial frames)
       = streak (fun f => negb (detect f)) frames
    /\ ((pt <= streak detect frames)%nat ->
        Webcam.human_present (after_frames detect pt at_ Webcam.initial frames) = true)
    /\ ((at_ <= streak (fun f => negb (detect f)) frames)%nat ->
        Webcam.human_present (after_frames detect pt at_ Webcam.initial frames) = false).
Proof.
  intros Hpt Hat frames. induction frames as [| f frames IH] using rev_ind.
  - cbn. repeat split; intros; first [reflexivity | lia].
  - rewrite after_frames_snoc, !streak_snoc.
    destruct IH as (Hp & Ha & _ & _).
    set (st := after_frames detect pt at_ Webcam.initial frames) in *.
    unfold Webcam.step. rewrite Hp, Ha.
    destruct (detect f); cbn [negb].
    + destruct (Nat.leb_spec pt (S (streak detect frames)));
        destruct (Webcam.human_present st) eqn:Hpres; cbn [andb negb];
        destruct (Nat.leb_spec at_ 0); try lia;
        cbn; repeat split; intros; first [reflexivity | lia | exact Hpres].
    + destruct (Nat.leb_spec pt 0); [lia |]. cbn [andb].
      destruct (Nat.leb_spec at_ (S (streak (fun f0 => negb (detect f0)) frames)));
        destruct (Webcam.human_present st) eqn:Hpres; cbn [andb];
        cbn; repeat split; intros; first [reflexivity | lia | exact Hpres].
Qed.

Lemma step_changed st f :
  Webcam.human_present (fst (Webcam.step detect pt at_ st f))
  = if snd (Webcam.step detect pt at_ st f)
    then negb (Webcam.human_present st) else Webcam.human_present st.
Proof.
  unfold Webcam.step.
  destruct (_ && negb _) eqn:H1; cbn [fst snd Webcam.human_present].
  - apply andb_true_iff in H1 as [_ H1]. now destruct (Webcam.human_present st).
  - destruct (_ && Webcam.human_present st) eqn:H2; cbn [fst snd Webcam.human_present].
    + apply andb_true_iff in H2 as [_ H2]. now rewrite H2.
    + reflexivity.
Qed.

(** The lines a loop prints from a state: status lines that alternate,
    beginning with the state the loop is not in, then the read error if a
    read failed. *)
Lemma loop_printed inputs : forall st,
  exists times tail,
    fst (fst (Webcam.loop detect pt at_ st inputs))
    = zip_with Webcam.log_line times
        (alternate (negb (Webcam.human_present st)) (length times)) ++ tail
    /\ (tail = [] \/ tail = ["Error: Failed to capture frame."]).
Proof.
  induction inputs as [| [| frame t key] rest IH]; intros st; cbn [Webcam.loop].
  - exists [], []. split; [reflexivity | now left].
  - exists [], ["Error: Failed to capture frame."]. split; [reflexivity | now right].
  - pose proof (step_changed st frame) as Hc.
    destruct (Webcam.step detect pt at_ st frame) as [st' changed]. cbn [fst snd] in Hc.
    destruct (Z.land key 255 =? 113).
    + cbn [fst]. destruct changed.
      * exists [t], []. rewrite Hc. split; [reflexivity | now left].
      * exists [], []. split; [reflexivity | now left].
    + destruct (IH st') as (times & tail & Hp & Htail).
      destruct (Webcam.loop detect pt at_ st' rest) as [[printed' st''] exited].
      cbn [fst] in *. rewrite Hp, Hc. destruct changed.
      * exists (t :: times), tail. split; [| exact Htail].
        cbn [length alternate zip_with app]. rewrite negb_involutive. reflexivity.
      * exists times, tail. split; [reflexivity | exact Htail].
Qed.
End Debounce.

(** Whatever the detector and the thresholds (both at least 1), after the
    frames a loop has worked on: the two counters are the lengths of the
    current run of detections and of the current run of misses; a run of
    detections as long as the presence threshold means the state is
    present, a run of misses as long as the absence threshold means it is not. *)
Theorem presence_follows_runs {F : Type} (detect : F -> bool) (pt at_ : nat)
    (inputs : list (Webcam.capture F)) :
  (0 < pt)%nat -> (0 < at_)%nat ->
  Webcam.presence_counter (snd (fst (Webcam.loop detect pt at_ Webcam.initial inputs)))
  = streak detect (processed inputs)
  /\ Webcam.absence_counter (snd (fst (Webcam.loop detect pt at_ Webcam.initial inputs)))
     = streak (fun f => negb (detect f)) (processed inputs)
  /\ ((pt <= streak detect (processed inputs))%nat ->
      Webcam.human_present (snd (fst (Webcam.loop detect pt at_ Webcam.initial inputs)))
      = true)
  /\ ((at_ <= streak (fun f => negb (detect f)) (processed inputs))%nat ->
      Webcam.human_present (snd (fst (Webcam.loop detect pt at_ Webcam.initial inputs)))
      = false).
Proof.
  intros Hpt Hat. rewrite loop_state.
  exact (debounce_invariant detect pt at_ Hpt Hat (processed inputs)).
Qed.

(** Three frames with an upper body, in web_cam_detector.py's loop. *)
Lemma presence_follows_runs_witness :
  Webcam.human_present
    (snd (fst (Webcam.loop Webcam.detect_human 3 5 Webcam.initial
                 [Webcam.Read (Webcam.mk_detections [] [] [] [(10, 10, 80, 80)]) "t1" (-1);
                  Webcam.Read (Webcam.mk_detections [] [] [] [(10, 10, 80, 80)]) "t2" (-1);
                  Webcam.Read (Webcam.mk_detections [] [] [] [(12, 10, 80, 80)]) "t3" (-1)])))
  = true.
Proof.
  apply (presence_follows_runs Webcam.detect_human 3 5
           [Webcam.Read (Webcam.mk_detections [] [] [] [(10, 10, 80, 80)]) "t1" (-1);
            Webcam.Read (Webcam.mk_detections [] [] [] [(10, 10, 80, 80)]) "t2" (-1);
            Webcam.Read (Webcam.mk_detections [] [] [] [(12, 10, 80, 80)]) "t3" (-1)]
           ltac:(lia) ltac:(lia)).
  vm_compute. lia.
Defined.

(** The state changes only on a full run: the frame that makes the state
    present is a detection that ends a run of detections as long as the
    presence threshold, and the frame that makes it not present is a miss
    that ends a run of misses as long as the absence threshold. *)
Theorem presence_changes_on_full_runs {F : Type} (detect : F -> bool) (pt at_ : nat)
    (inputs : list (Webcam.capture F)) (f : F) :
  (0 < pt)%nat -> (0 < at_)%nat ->
  (Webcam.human_present (snd (fst (Webcam.loop detect pt at_ Webcam.initial inputs)))
   = false ->
   Webcam.human_present
     (fst (Webcam.step detect pt at_
             (snd (fst (Webcam.loop detect pt at_ Webcam.initial inputs))) f)) = true ->
   detect f = true /\ (pt <= S (streak detect (processed inputs)))%nat)
  /\ (Webcam.human_present (snd (fst (Webcam.loop detect pt at_ Webcam.initial inputs)))
      = true ->
      Webcam.human_present
        (fst (Webcam.step detect pt at_
                (snd (fst (Webcam.loop detect pt at_ Webcam.initial inputs))) f)) = false ->
      detect f = false
      /\ (at_ <= S (streak (fun f => negb (detect f)) (processed inputs)))%nat).
Proof.
  intros Hpt Hat. rewrite loop_state.
  destruct (debounce_invariant detect pt at_ Hpt Hat (processed inputs))
    as (Hp & Ha & _ & _).
  set (st := after_frames detect pt at_ Webcam.initial (processed inputs)) in *.
  unfold Webcam.step. rewrite Hp, Ha. split; intros Hpres; rewrite Hpres; cbn [negb].
  - destruct (detect f).
    + destruct (Nat.leb_spec pt (S (streak detect (processed inputs))));
        cbn [andb fst Webcam.human_present]; [intros _; split; [reflexivity | lia] |].
      rewrite andb_false_r. cbn. discriminate.
    + destruct (Nat.leb_spec pt 0); [lia |]. rewrite andb_false_r. cbn. discriminate.
  - rewrite !andb_false_r, !andb_true_r. destruct (detect f).
    + destruct (Nat.leb_spec at_ 0); [lia |]. cbn. discriminate.
    + destruct (Nat.leb_spec at_
                  (S (streak (fun f0 => negb (detect f0)) (processed inputs))));
        cbn; [intros _; split; [reflexivity | lia] | discriminate].
Qed.

(** A fifth miss in a row, after three detections, in web_cam_detector.py's
    loop. *)
Lemma presence_changes_on_full_runs_witness :
  Webcam.detect_human (Webcam.mk_detections [] [] [] []) = false
  /\ (5 <= S (streak (fun f => negb (Webcam.detect_human f))
                (processed three_hits_four_misses)))%nat.
Proof.
  apply (proj2 (presence_changes_on_full_runs Webcam.detect_human 3 5
                  three_hits_four_misses
                  (Webcam.mk_detections [] [] [] []) ltac:(lia) ltac:(lia)));
    reflexivity.
Defined.

(** The status lines a loop prints alternate: the first says present, the
    next not present, and so on, in this order whatever the detector, the
    thresholds and the frames; only the error line of a failed read can
    follow them. *)
Theorem status_lines_alternate {F : Type} (detect : F -> bool) (pt at_ : nat)
    (inputs : list (Webcam.capture F)) :
  exists times tail,
    fst (fst (Webcam.loop detect pt at_ Webcam.initial inputs))
    = zip_with Webcam.log_line times (alternate true (length times)) ++ tail
    /\ (tail = [] \/ tail = ["Error: Failed to capture frame."]).
Proof. exact (loop_printed detect pt at_ inputs Webcam.initial). Qed.

(** * The activity logger *)

Lemma prefix_split sep : forall s,
  String.prefix sep s = true -> exists rest, s = sep +:+ rest.
Proof.
  induction sep as [| a sep IH]; intros s H.
  - exists s. reflexivity.
  - destruct s as [| c s]; cbn [String.prefix] in H; [discriminate |].
    destruct (ascii_dec a c) as [<- | _]; [| discriminate].
    destruct (IH s H) as [rest ->]. exists rest. reflexivity.
Qed.

Lemma before_prefix sep s : String.prefix (SystemTracker.before sep s) s = true.
Proof.
  induction s as [| c s IH]; cbn [SystemTracker.before]; [reflexivity |].
  destruct (String.prefix sep (String c s)).
  - reflexivity.
  - cbn [String.prefix]. destruct (ascii_dec c c); [exact IH | congruence].
Qed.

Lemma before_split sep s :
  SystemTracker.contains sep s = true ->
  exists rest, s = SystemTracker.before sep s +:+ sep +:+ rest.
Proof.
  induction s as [| c s IH]; cbn [SystemTracker.contains SystemTracker.before]; intros H.
  - destruct sep; [exists ""; reflexivity | discriminate H].
  - destruct (String.prefix sep (String c s)) eqn:Hp.
    + apply prefix_split in Hp as [rest ->]. exists rest. reflexivity.
    + destruct (IH H) as [rest Hrest]. exists rest.
      rewrite append_cons. f_equal. exact Hrest.
Qed.

Lemma before_without sep s :
  sep <> "" -> SystemTracker.contains sep (SystemTracker.before sep s) = false.
Proof.
  intros Hsep. assert (Hnil : String.prefix sep "" = false).
  { destruct sep; [congruence | reflexivity]. }
  induction s as [| c s IH]; cbn [SystemTracker.before]; [exact Hnil |].
  destruct (String.prefix sep (String c s)) eqn:Hp; [exact Hnil |].
  cbn [SystemTracker.contains]. rewrite IH, orb_false_r.
  destruct (String.prefix sep (String c (SystemTracker.before sep s))) eqn:Hq;
    [| reflexivity].
  rewrite <- Hp. symmetry. eapply prefix_trans; [exact Hq |].
  cbn [String.prefix]. destruct (ascii_dec c c); [apply before_prefix | congruence].
Qed.

(** The [url] or [file_path] that [get_window_details] extracts, when it is
    not [None], is the head of the title: the title is this head, then
    [" - "], then the rest, and the head holds no [" - "] itself. *)
Theorem metadata_is_title_head (probe : SystemTracker.window -> string + string * Z)
    (win : SystemTracker.window) (title process_name : string) (pid : Z)
    (bounds : Z * Z * Z * Z) (md : SystemTracker.metadata) (head : string) :
  SystemTracker.get_window_details probe (Some win)
  = Some (SystemTracker.Details title process_name pid bounds md) ->
  md = SystemTracker.UrlKey (Some head) \/ md = SystemTracker.FilePathKey (Some head) ->
  title = SystemTracker.title win
  /\ (exists rest, SystemTracker.title win = head +:+ " - " +:+ rest)
  /\ SystemTracker.contains " - " head = false.
Proof.
  unfold SystemTracker.get_window_details.
  destruct (probe win) as [e | [name p]]; [discriminate |].
  intros [= <- _ _ _ Hmd] Hhead. split; [reflexivity |].
  assert (Hth : SystemTracker.title_head (SystemTracker.title win) = Some head).
  { destruct (_ || _) in Hmd; [| destruct (_ || _) in Hmd];
      destruct Hhead as [-> | ->]; congruence. }
  unfold SystemTracker.title_head in Hth.
  destruct (SystemTracker.contains " - " (SystemTracker.title win)) eqn:Hc;
    [| discriminate].
  injection Hth as <-. split.
  - apply before_split, Hc.
  - apply before_without. discriminate.
Qed.

Lemma metadata_is_title_head_witness :
  "Rocq Prover - Mozilla Firefox" = "Rocq Prover - Mozilla Firefox"
  /\ (exists rest, "Rocq Prover - Mozilla Firefox" = "Rocq Prover" +:+ " - " +:+ rest)
  /\ SystemTracker.contains " - " "Rocq Prover" = false.
Proof.
  apply (metadata_is_title_head
           (fun _ => inr ("Firefox.exe", 4242))
           (SystemTracker.mk_window 7 "Rocq Prover - Mozilla Firefox" (0, 0, 800, 600))
           "Rocq Prover - Mozilla Firefox" "Firefox.exe" 4242 (0, 0, 800, 600)
           (SystemTracker.UrlKey (Some "Rocq Prover")) "Rocq Prover").
  - reflexivity.
  - left. reflexivity.
Defined.

Section Tracker.
Context (probe : SystemTracker.window -> string + string * Z).

Lemma periodic_tracker_cons st t rest :
  SystemTracker.periodic_tracker probe st (t :: rest)
  = (fst (SystemTracker.periodic_tracker_turn probe st t)
     ++ fst (SystemTracker.periodic_tracker probe
               (snd (SystemTracker.periodic_tracker_turn probe st t)) rest),
     snd (SystemTracker.periodic_tracker probe
            (snd (SystemTracker.periodic_tracker_turn probe st t)) rest)).
Proof.
  cbn [SystemTracker.periodic_tracker].
  destruct (SystemTracker.periodic_tracker_turn probe st t) as [logged st'].
  cbn [fst snd].
  destruct (SystemTracker.periodic_tracker probe st' rest) as [logged' st''].
  reflexivity.
Qed.

(** The entries of one turn, counted by type. *)
Lemma turn_counts st t :
  length (List.filter is_clipboard_change
            (fst (SystemTracker.periodic_tracker_turn probe st t)))
  = (if (SystemTracker.clipboard t =? SystemTracker.last_clipboard st)%string
     then 0 else 1)%nat
  /\ length (List.filter is_window_change
               (fst (SystemTracker.periodic_tracker_turn probe st t)))
     = (if SystemTracker.same_window (SystemTracker.active_window t)
             (SystemTracker.current_window st)
        then 0 else 1)%nat
  /\ length (List.filter is_network_activity
               (fst (SystemTracker.periodic_tracker_turn probe st t)))
     = (if browser_window probe (SystemTracker.active_window t) then 1 else 0)%nat.
Proof.
  unfold SystemTracker.periodic_tracker_turn. cbn [fst].
  rewrite !List.filter_app, !length_app.
  destruct (SystemTracker.same_window _ _); cbn [negb];
    destruct (_ =? _)%string; cbn [negb];
    unfold browser_window, SystemTracker.get_window_details;
    destruct (SystemTracker.active_window t) as [win |];
    try destruct (probe win) as [e | [name pid]];
    try destruct (SystemTracker.current_window st) as [cw |];
    try destruct (SystemTracker.window_start_time st) as [start |];
    try destruct (SystemTracker.contains "chrome" _ || _);
    try destruct (SystemTracker.contains "notepad" _ || _);
    repeat split; reflexivity.
Qed.
End Tracker.

Lemma last_cons {A} (x d : A) (l : list A) : List.last (x :: l) d = List.last l x.
Proof.
  revert x d. induction l as [| y l IH]; intros x d; [reflexivity |].
  change (List.last (x :: y :: l) d) with (List.last (y :: l) d).
  rewrite (IH y d), (IH y x). reflexivity.
Qed.

Lemma same_window_trans x y c :
  SystemTracker.same_window x c = true ->
  SystemTracker.same_window y c = SystemTracker.same_window y x.
Proof.
  destruct x as [x |], y as [y |], c as [c |]; cbn; try reflexivity; try discriminate.
  intros H. apply Z.eqb_eq in H. now rewrite H.
Qed.

(** Over any run of the tracker's loop, a clipboard content is logged when
    it differs from the one read the turn before (at first, from the one read
    at start-up), and only then: an unchanged clipboard is never logged
    again. Likewise a [window_change] is logged exactly when the active
    window is not the one of the turn before. *)
Theorem changes_are_logged_once (probe : SystemTracker.window -> string + string * Z)
    (st : SystemTracker.tracker) (ticks : list SystemTracker.tick) :
  length (List.filter is_clipboard_change
            (fst (SystemTracker.periodic_tracker probe st ticks)))
  = changes String.eqb (SystemTracker.last_clipboard st)
      (map SystemTracker.clipboard ticks)
  /\ SystemTracker.last_clipboard (snd (SystemTracker.periodic_tracker probe st ticks))
     = List.last (map SystemTracker.clipboard ticks) (SystemTracker.last_clipboard st)
  /\ length (List.filter is_window_change
               (fst (SystemTracker.periodic_tracker probe st ticks)))
     = changes SystemTracker.same_window (SystemTracker.current_window st)
         (map SystemTracker.active_window ticks).
Proof.
  revert st. induction ticks as [| t ticks IH]; intros st; [repeat split |].
  rewrite periodic_tracker_cons. cbn [fst snd map changes].
  rewrite !List.filter_app, !length_app, last_cons.
  destruct (turn_counts probe st t) as (Hc & Hw & _). rewrite Hc, Hw.
  destruct (IH (snd (SystemTracker.periodic_tracker_turn probe st t)))
    as (IHc & IHl & IHw).
  rewrite IHc, IHl, IHw. cbn [SystemTracker.periodic_tracker_turn snd
    SystemTracker.last_clipboard SystemTracker.current_window].
  repeat split.
  destruct (SystemTracker.same_window (SystemTracker.active_window t)
              (SystemTracker.current_window st)) eqn:Hs; cbn [negb]; [| reflexivity].
  f_equal. clear -Hs. induction ticks as [| t' ticks IH']; [reflexivity |].
  cbn [map changes]. now rewrite (same_window_trans _ _ _ Hs).
Qed.

(** While a browser window is active, every turn of the loop logs a
    [network_activity] entry, also when no URL could be read off the title:
    over a run, there are as many such entries as turns with an active
    browser window. *)
Theorem network_activity_every_turn (probe : SystemTracker.window -> string + string * Z)
    (st : SystemTracker.tracker) (ticks : list SystemTracker.tick) :
  length (List.filter is_network_activity
            (fst (SystemTracker.periodic_tracker probe st ticks)))
  = length (List.filter
              (fun t => browser_window probe (SystemTracker.active_window t)) ticks).
Proof.
  revert st. induction ticks as [| t ticks IH]; intros st; [reflexivity |].
  rewrite periodic_tracker_cons. cbn [fst List.filter].
  rewrite List.filter_app, length_app, IH.
  destruct (turn_counts probe st t) as (_ & _ & Hn). rewrite Hn.
  destruct (browser_window probe (SystemTracker.active_window t)); reflexivity.
Qed.

Lemma total_time_spent_app l1 l2 :
  total_time_spent (l1 ++ l2) = total_time_spent l1 + total_time_spent l2.
Proof.
  induction l1 as [| e l1 IH]; [reflexivity |].
  destruct e; cbn [app total_time_spent]; rewrite IH; lia.
Qed.

Lemma turn_time_spent probe st t cw start :
  SystemTracker.current_window st = Some cw ->
  SystemTracker.window_start_time st = Some start ->
  SystemTracker.current_window (snd (SystemTracker.periodic_tracker_turn probe st t))
  = (if SystemTracker.same_window (SystemTracker.active_window t) (Some cw)
     then Some cw else SystemTracker.active_window t)
  /\ SystemTracker.window_start_time
       (snd (SystemTracker.periodic_tracker_turn probe st t))
     = Some (start
             + total_time_spent (fst (SystemTracker.periodic_tracker_turn probe st t))
             + (if SystemTracker.same_window (SystemTracker.active_window t) (Some cw)
                then 0
                else SystemTracker.now_start t - SystemTracker.now_duration t)).
Proof.
  intros Hcw Hstart. unfold SystemTracker.periodic_tracker_turn.
  cbn [fst snd SystemTracker.current_window SystemTracker.window_start_time].
  rewrite Hcw, Hstart, !total_time_spent_app.
  assert (Hclip : total_time_spent
                    (if negb (SystemTracker.clipboard t
                              =? SystemTracker.last_clipboard st)%string
                     then [SystemTracker.clipboard_change
                             (SystemTracker.get_timestamp (SystemTracker.now t))
                             (SystemTracker.clipboard t)]
                     else []) = 0).
  { destruct (negb _); reflexivity. }
  assert (Hnet : total_time_spent
                   (match SystemTracker.get_window_details probe
                            (SystemTracker.active_window t) with
                    | Some (SystemTracker.Details title0 name pid b
                              (SystemTracker.UrlKey url) as d) =>
                        [SystemTracker.network_activity
                           (SystemTracker.get_timestamp (SystemTracker.now t)) url d]
                    | _ => []
                    end) = 0).
  { destruct (SystemTracker.get_window_details probe _) as [[? ? ? ? []|] |];
      reflexivity. }
  rewrite Hclip, Hnet.
  destruct (SystemTracker.same_window _ _); cbn [negb].
  - split; [reflexivity |]. cbn. f_equal. lia.
  - split; [reflexivity |]. cbn. f_equal. lia.
Qed.

Lemma unaccounted_nonneg ticks :
  Forall (fun t => SystemTracker.now_duration t <= SystemTracker.now_start t) ticks ->
  forall prev, 0 <= unaccounted prev ticks.
Proof.
  induction 1 as [| t ticks Ht _ IH]; intros prev; cbn [unaccounted]; [lia |].
  destruct (SystemTracker.same_window _ _); [apply IH |].
  specialize (IH (SystemTracker.active_window t)). lia.
Qed.

(** The time spent adds up only as far as the clock is read: the tracker
    reads it once for the duration of the window left and again, after the
    screenshot and the logging, for the start of the new window.  As long as
    some window is active at every turn, the start time of the current window
    is the start time of the first one, plus the durations logged in
    [window_time_spent] entries, plus the seconds between the two readings in
    every turn that found another window, which no entry accounts for.  With
    a clock that does not go back between the two readings, the durations
    logged never add up to more than the time from the first start to the
    current one: no second is counted twice. *)
Theorem time_spent_up_to_screenshots
    (probe : SystemTracker.window -> string + string * Z)
    (st : SystemTracker.tracker) (ticks : list SystemTracker.tick)
    (cw : SystemTracker.window) (start : Z) :
  SystemTracker.current_window st = Some cw ->
  SystemTracker.window_start_time st = Some start ->
  Forall (fun t => SystemTracker.active_window t <> None) ticks ->
  exists start',
    SystemTracker.window_start_time
      (snd (SystemTracker.periodic_tracker probe st ticks)) = Some start'
    /\ start'
       = start + total_time_spent (fst (SystemTracker.periodic_tracker probe st ticks))
         + unaccounted (Some cw) ticks
    /\ (Forall (fun t => SystemTracker.now_duration t <= SystemTracker.now_start t)
               ticks ->
        start + total_time_spent (fst (SystemTracker.periodic_tracker probe st ticks))
        <= start').
Proof.
  intros Hcw Hstart Hall.
  cut (SystemTracker.window_start_time
         (snd (SystemTracker.periodic_tracker probe st ticks))
       = Some (start
               + total_time_spent (fst (SystemTracker.periodic_tracker probe st ticks))
               + unaccounted (Some cw) ticks)).
  { intros H. eexists. refine (conj H (conj eq_refl _)).
    intros Hclock. pose proof (unaccounted_nonneg ticks Hclock (Some cw)). lia. }
  revert st cw start Hcw Hstart.
  induction Hall as [| t ticks Ht _ IH]; intros st cw start Hcw Hstart.
  - cbn. rewrite Hstart. f_equal. lia.
  - rewrite periodic_tracker_cons. cbn [fst snd unaccounted].
    destruct (turn_time_spent probe st t cw start Hcw Hstart) as (Hcw' & Hstart').
    rewrite total_time_spent_app.
    destruct (SystemTracker.same_window (SystemTracker.active_window t) (Some cw)).
    + rewrite (IH _ cw _ Hcw' Hstart'). f_equal. lia.
    + destruct (SystemTracker.active_window t) as [aw |] eqn:E; [| congruence].
      rewrite (IH _ aw _ Hcw' Hstart'). f_equal. lia.
Qed.

(** The editor is left for the browser: the clock reads 107 for the
    duration, the screenshot takes two seconds, and the count of the browser
    window starts at 109, seven seconds being logged for the editor. *)
Lemma time_spent_up_to_screenshots_witness :
  exists start',
    SystemTracker.window_start_time
      (snd (SystemTracker.periodic_tracker (fun _ => inr ("Code.exe", 1))
              (SystemTracker.mk_tracker
                 (Some (SystemTracker.mk_window 1 "a.py - Code" (0, 0, 10, 10)))
                 (Some 100) "")
              [SystemTracker.mk_tick
                 (Some (SystemTracker.mk_window 1 "a.py - Code" (0, 0, 10, 10)))
                 101 101 101 "" "s1";
               SystemTracker.mk_tick
                 (Some (SystemTracker.mk_window 2 "Inbox - Firefox" (0, 0, 10, 10)))
                 107 107 109 "" "s2"]))
    = Some start'
    /\ start' = 100 + 7 + 2
    /\ 100 + 7 <= start'.
Proof.
  destruct (time_spent_up_to_screenshots (fun _ => inr ("Code.exe", 1))
              (SystemTracker.mk_tracker
                 (Some (SystemTracker.mk_window 1 "a.py - Code" (0, 0, 10, 10)))
                 (Some 100) "")
              [SystemTracker.mk_tick
                 (Some (SystemTracker.mk_window 1 "a.py - Code" (0, 0, 10, 10)))
                 101 101 101 "" "s1";
               SystemTracker.mk_tick
                 (Some (SystemTracker.mk_window 2 "Inbox - Firefox" (0, 0, 10, 10)))
                 107 107 109 "" "s2"]
              (SystemTracker.mk_window 1 "a.py - Code" (0, 0, 10, 10)) 100
              eq_refl eq_refl ltac:(repeat constructor; discriminate))
    as (start' & H1 & H2 & H3).
  exists start'. refine (conj H1 (conj H2 _)).
  apply H3. repeat constructor; vm_compute; discriminate.
Defined.
